(** * Weather query service: a shallow embedding of [weather/views.py]

    The two request handlers [CurrentWeatherView.get] and
    [ForecastWeatherView.get] are embedded as computations in a small
    state-and-exception monad over a world that holds the cache store, a
    clock and the trace of the side effects performed so far.  The Python
    builtins the handlers rely on (string methods, subscripting, [round],
    truthiness) are embedded as total functions that return either a value
    or the exception Python raises.

    Strings are sequences of 8-bit characters; case mapping and whitespace
    are the ASCII ones, characters above 127 are inert. *)

From Stdlib Require Import ZArith Floats Ascii String List Bool Lia.
From stdpp Require Import base option list gmap strings.

Set Warnings "-inexact-float,-register-all".
Local Open Scope string_scope.
Local Open Scope list_scope.
Local Open Scope Z_scope.

(** ** Python strings *)

Module PyStr.

(** Characters [str.isspace] accepts: TAB, LF, VT, FF, CR, the four
    separators FS GS RS US, and the space. *)
Definition is_space (c : ascii) : bool :=
  let n := N_of_ascii c in
  ((9 <=? n) && (n <=? 13) || (28 <=? n) && (n <=? 32))%N.

Definition is_upper (c : ascii) : bool :=
  let n := N_of_ascii c in ((65 <=? n) && (n <=? 90))%N.

Definition is_lower (c : ascii) : bool :=
  let n := N_of_ascii c in ((97 <=? n) && (n <=? 122))%N.

Definition is_cased (c : ascii) : bool := is_upper c || is_lower c.

Definition to_lower (c : ascii) : ascii :=
  if is_upper c then ascii_of_N (N_of_ascii c + 32) else c.

Definition to_upper (c : ascii) : ascii :=
  if is_lower c then ascii_of_N (N_of_ascii c - 32) else c.

Fixpoint lstrip (s : string) : string :=
  match s with
  | EmptyString => EmptyString
  | String c s' => if is_space c then lstrip s' else s
  end.

Fixpoint rstrip (s : string) : string :=
  match s with
  | EmptyString => EmptyString
  | String c s' =>
      match rstrip s' with
      | EmptyString => if is_space c then EmptyString else String c EmptyString
      | r => String c r
      end
  end.

(** [s.strip()] *)
Definition strip (s : string) : string := rstrip (lstrip s).

(** [s.lower()] *)
Fixpoint lower (s : string) : string :=
  match s with
  | EmptyString => EmptyString
  | String c s' => String (to_lower c) (lower s')
  end.

(** [s.title()]: a character that follows a cased one is lowered, any
    other is raised. *)
Fixpoint title_from (previous_is_cased : bool) (s : string) : string :=
  match s with
  | EmptyString => EmptyString
  | String c s' =>
      String (if previous_is_cased then to_lower c else to_upper c)
             (title_from (is_cased c) s')
  end.

Definition title (s : string) : string := title_from false s.

(** [bool(s)] *)
Definition truthy (s : string) : bool :=
  match s with EmptyString => false | _ => true end.

(** [s * n] *)
Fixpoint repeat (s : string) (n : nat) : string :=
  match n with O => EmptyString | S n' => s +:+ repeat s n' end.

(** The one-character strings a [for] loop over [s] yields. *)
Fixpoint chars (s : string) : list string :=
  match s with
  | EmptyString => []
  | String c s' => String c EmptyString :: chars s'
  end.

(** The double quote, which the not-found message puts around the city. *)
Definition dquote : string := String (ascii_of_N 34) EmptyString.

End PyStr.

(** ** Exceptions and results *)

(** The exception classes that can reach the handlers' [except] clauses.
    The first three are classes of [requests.exceptions]; [Timeout] and
    [ConnectionError] derive from [RequestException], which stands here for
    every other subclass of it. *)
Inductive exn : Type :=
| Timeout
| ConnectionError
| RequestException
| KeyError
| IndexError
| TypeError
| AttributeError
| ValueError
| OverflowError.

(** [isinstance(e, requests.exceptions.Timeout)] *)
Definition is_Timeout (e : exn) : bool :=
  match e with Timeout => true | _ => false end.

(** [isinstance(e, requests.exceptions.RequestException)] *)
Definition is_RequestException (e : exn) : bool :=
  match e with
  | Timeout | ConnectionError | RequestException => true
  | _ => false
  end.

Inductive result (A : Type) : Type :=
| Ok (a : A)
| Raise (e : exn).
Arguments Ok {A} a.
Arguments Raise {A} e.

#[global] Instance result_ret : MRet result := fun _ a => Ok a.
#[global] Instance result_bind : MBind result := fun _ _ f r =>
  match r with Ok a => f a | Raise e => Raise e end.

(** ** Python floats and the builtin [round]

    A Python float is an IEEE 754 binary64 number, here the kernel's
    primitive [float]; its exact value is read off its decomposition into
    sign, mantissa and exponent. *)

Module PyFloat.

(** The integer nearest to [num / den] for [0 < den], ties going to the
    even neighbour. *)
Definition round_half_even (num den : Z) : Z :=
  let q := num / den in
  let r := num mod den in
  match 2 * r ?= den with
  | Lt => q
  | Gt => q + 1
  | Eq => if Z.even q then q else q + 1
  end.

(** The exact value of a finite float as a fraction with a positive
    denominator. *)
Definition fraction (f : float) : option (Z * Z) :=
  match Prim2SF f with
  | S754_zero _ => Some (0, 1)
  | S754_finite s m e =>
      let sm := if s then Z.neg m else Z.pos m in
      Some (if 0 <=? e then (sm * 2 ^ e, 1) else (sm, 2 ^ (- e)))
  | S754_infinity _ | S754_nan => None
  end.

(** [round(f)]: the nearest integer, ties to even; an infinity raises
    [OverflowError] and a NaN raises [ValueError]. *)
Definition round (f : float) : result Z :=
  match Prim2SF f with
  | S754_infinity _ => Raise OverflowError
  | S754_nan => Raise ValueError
  | _ =>
      match fraction f with
      | Some (num, den) => Ok (round_half_even num den)
      | None => Raise ValueError
      end
  end.

(** The binary64 number nearest to [k / 10], with the sign [s] when [k]
    is zero. *)
Definition tenths (s : bool) (k : Z) : float :=
  match k with
  | Z0 => SF2Prim (S754_zero s)
  | Zpos p =>
      SF2Prim (SFdiv prec emax (S754_finite false p 0) (S754_finite false 10 0))
  | Zneg p =>
      SF2Prim (SFdiv prec emax (S754_finite true p 0) (S754_finite false 10 0))
  end.

(** [round(f, 1)]: the exact value is rounded to a whole number of
    tenths, ties to even, and that decimal is read back as a float;
    zeros, infinities and NaN are returned as they are. *)
Definition round1 (f : float) : float :=
  match Prim2SF f with
  | S754_finite s _ _ =>
      match fraction f with
      | Some (num, den) => tenths s (round_half_even (10 * num) den)
      | None => f
      end
  | _ => f
  end.

(** [bool(f)] *)
Definition truthy (f : float) : bool :=
  match Prim2SF f with S754_zero _ => false | _ => true end.

End PyFloat.

(** ** JSON values as Python objects

    What [response.json()] returns and what the handlers build: [None],
    booleans, integers, floats, strings, lists, and dictionaries with string
    keys in insertion order. *)

Inductive json : Type :=
| JNull
| JBool (b : bool)
| JInt (n : Z)
| JFloat (f : float)
| JStr (s : string)
| JArr (items : list json)
| JObj (fields : list (string * json)).

Module Py.

Fixpoint assoc (k : string) (fields : list (string * json)) : option json :=
  match fields with
  | [] => None
  | (k', v) :: rest => if String.eqb k k' then Some v else assoc k rest
  end.

Definition int_of_bool (b : bool) : Z := if b then 1 else 0.

(** [v[k]] for a string key [k] *)
Definition getitem (v : json) (k : string) : result json :=
  match v with
  | JObj fields =>
      match assoc k fields with Some x => Ok x | None => Raise KeyError end
  | _ => Raise TypeError
  end.

(** [v[0]] *)
Definition getitem0 (v : json) : result json :=
  match v with
  | JArr (x :: _) => Ok x
  | JArr [] => Raise IndexError
  | JStr (String c _) => Ok (JStr (String c EmptyString))
  | JStr EmptyString => Raise IndexError
  | JObj _ => Raise KeyError
  | _ => Raise TypeError
  end.

(** [v.get(k, default)] *)
Definition get (v : json) (k : string) (default : json) : result json :=
  match v with
  | JObj fields =>
      Ok (match assoc k fields with Some x => x | None => default end)
  | _ => Raise AttributeError
  end.

(** [round(v)] *)
Definition round (v : json) : result json :=
  match v with
  | JInt n => Ok (JInt n)
  | JBool b => Ok (JInt (int_of_bool b))
  | JFloat f => n ← PyFloat.round f; Ok (JInt n)
  | _ => Raise TypeError
  end.

(** [round(v, 1)] *)
Definition round1 (v : json) : result json :=
  match v with
  | JInt n => Ok (JInt n)
  | JBool b => Ok (JInt (int_of_bool b))
  | JFloat f => Ok (JFloat (PyFloat.round1 f))
  | _ => Raise TypeError
  end.

(** [v.title()] *)
Definition title (v : json) : result json :=
  match v with
  | JStr s => Ok (JStr (PyStr.title s))
  | _ => Raise AttributeError
  end.

(** [v * 100] *)
Definition mul100 (v : json) : result json :=
  match v with
  | JInt n => Ok (JInt (n * 100))
  | JBool b => Ok (JInt (int_of_bool b * 100))
  | JFloat f => Ok (JFloat (f * 100)%float)
  | JStr s => Ok (JStr (PyStr.repeat s 100))
  | JArr items => Ok (JArr (mjoin (replicate 100 items)))
  | JNull | JObj _ => Raise TypeError
  end.

(** The items a [for] loop over [v] visits. *)
Definition iter (v : json) : result (list json) :=
  match v with
  | JArr items => Ok items
  | JStr s => Ok (map JStr (PyStr.chars s))
  | JObj fields => Ok (map (fun kv => JStr (fst kv)) fields)
  | _ => Raise TypeError
  end.

(** [bool(v)] *)
Definition truthy (v : json) : bool :=
  match v with
  | JNull => false
  | JBool b => b
  | JInt n => negb (n =? 0)
  | JFloat f => PyFloat.truthy f
  | JStr s => PyStr.truthy s
  | JArr items => match items with [] => false | _ => true end
  | JObj fields => match fields with [] => false | _ => true end
  end.

End Py.

(** ** The world the handlers run in *)

(** The side effects a handler can perform, in the order it performs them. *)
Inductive event : Type :=
| CacheGet (key : string)
| CacheSet (key : string) (value : json) (timeout : Z)
| RequestsGet (url : string) (params : list (string * json)) (timeout : Z).

(** Modelled from the spec: the cache store behind [django.core.cache.cache]
    is configured outside the repository.  It is the key-value store of the
    spec's cache dependency: [set] keeps a value until its time-to-live has
    elapsed, [get] answers with the value or with nothing, and neither
    fails.  An entry is a value with the instant at which it expires. *)
Record world : Type := mkWorld {
  cache : gmap string (json * Z);
  clock : Z;
  trace : list event
}.

Definition log_event (ev : event) (w : world) : world :=
  mkWorld (cache w) (clock w) (trace w ++ [ev]).

Definition advance (seconds : Z) (w : world) : world :=
  mkWorld (cache w) (clock w + Z.max 0 seconds) (trace w).

(** What is stored under [key] and has not expired. *)
Definition live_entry (w : world) (key : string) : option json :=
  match cache w !! key with
  | Some (value, expires) => if clock w <? expires then Some value else None
  | None => None
  end.

(** Computations that read and write the world and may raise. *)
Definition M (A : Type) : Type := world -> result A * world.

#[global] Instance M_ret : MRet M := fun _ a w => (Ok a, w).
#[global] Instance M_bind : MBind M := fun _ _ f m w =>
  match m w with
  | (Ok a, w') => f a w'
  | (Raise e, w') => (Raise e, w')
  end.

Definition lift {A} (r : result A) : M A := fun w => (r, w).

(** [try: body except Exception as e: handler(e)]; what the body did to the
    world before it raised stays done. *)
Definition try_except {A} (body : M A) (handler : exn -> M A) : M A :=
  fun w =>
    match body w with
    | (Ok a, w') => (Ok a, w')
    | (Raise e, w') => handler e w'
    end.

(** [cache.get(key)]: the live value, or [None]. *)
Definition cache_get (key : string) : M json := fun w =>
  (Ok (default JNull (live_entry w key)), log_event (CacheGet key) w).

(** [cache.set(key, value, timeout=timeout)] *)
Definition cache_set (key : string) (value : json) (timeout : Z) : M unit :=
  fun w =>
    (Ok (),
     log_event (CacheSet key value timeout)
       (mkWorld (<[key := (value, clock w + timeout)]> (cache w))
                (clock w) (trace w))).

(** The upstream provider, as [requests.get] sees it: a call either raises
    or returns a response, whose [json()] method in turn yields the decoded
    body or raises; either way some time has passed. *)
Record HttpResponse : Type := mkHttpResponse {
  status_code : Z;
  json_body : result json
}.

Record upstream_reply : Type := mkReply {
  outcome : result HttpResponse;
  elapsed : Z
}.

Definition upstream : Type :=
  string -> list (string * json) -> Z -> upstream_reply.

(** [requests.get(url, params=params, timeout=timeout)] *)
Definition requests_get (up : upstream) (url : string)
    (params : list (string * json)) (timeout : Z) : M HttpResponse :=
  fun w =>
    let reply := up url params timeout in
    (outcome reply,
     advance (elapsed reply) (log_event (RequestsGet url params timeout) w)).

(** ** Requests, responses and settings *)

(** The query string as the pairs it lists, in order. *)
Record Request : Type := mkRequest {
  query_params : list (string * string)
}.

(** [QueryDict.get(key, default)]: the last value given for [key]. *)
Fixpoint QueryDict_get (q : list (string * string)) (key default : string)
    : string :=
  match q with
  | [] => default
  | (k, v) :: rest =>
      if String.eqb k key then QueryDict_get rest key v
      else QueryDict_get rest key default
  end.

(** [Response(data, status=status)] of the REST framework. *)
Record Response : Type := mkResponse {
  data : json;
  status : Z
}.

Definition HTTP_200_OK : Z := 200.
Definition HTTP_400_BAD_REQUEST : Z := 400.
Definition HTTP_404_NOT_FOUND : Z := 404.
Definition HTTP_408_REQUEST_TIMEOUT : Z := 408.
Definition HTTP_500_INTERNAL_SERVER_ERROR : Z := 500.
Definition HTTP_503_SERVICE_UNAVAILABLE : Z := 503.

(** The two values the handlers read from [django.conf.settings]. *)
Record Settings : Type := mkSettings {
  WEATHER_API_BASE_URL : string;
  WEATHER_API_KEY : string
}.

(** The dictionary every error response carries. *)
Definition failure (message : string) : json :=
  JObj [("success", JBool false); ("message", JStr message)].

(** ** The handlers of [weather/views.py]

    The calls to [logger] have no bearing on the response, the cache or the
    upstream provider and are left out. *)

(** [d[a][b]] *)
Definition getitem2 (d : json) (a b : string) : result json :=
  x ← Py.getitem d a; Py.getitem x b.

(** [d[a][0][b]] *)
Definition getitem_first (d : json) (a b : string) : result json :=
  x ← Py.getitem d a; y ← Py.getitem0 x; Py.getitem y b.

(** The dictionary [weather_data] that [CurrentWeatherView.get] builds from
    the decoded upstream body; the entries are evaluated in this order. *)
Definition current_weather_data (data : json) : result json :=
  city ← Py.getitem data "name";
  country ← getitem2 data "sys" "country";
  lat ← getitem2 data "coord" "lat";
  lon ← getitem2 data "coord" "lon";
  temperature ← getitem2 data "main" "temp" ≫= Py.round;
  feels_like ← getitem2 data "main" "feels_like" ≫= Py.round;
  temp_min ← getitem2 data "main" "temp_min" ≫= Py.round;
  temp_max ← getitem2 data "main" "temp_max" ≫= Py.round;
  humidity ← getitem2 data "main" "humidity";
  pressure ← getitem2 data "main" "pressure";
  description ← getitem_first data "weather" "description" ≫= Py.title;
  main ← getitem_first data "weather" "main";
  icon ← getitem_first data "weather" "icon";
  wind_speed ← getitem2 data "wind" "speed" ≫= Py.round1;
  wind_deg ← (wind ← Py.getitem data "wind"; Py.get wind "deg" (JInt 0));
  clouds ← getitem2 data "clouds" "all";
  visibility ← Py.get data "visibility" (JInt 0);
  sunrise ← getitem2 data "sys" "sunrise";
  sunset ← getitem2 data "sys" "sunset";
  timezone ← Py.getitem data "timezone";
  timestamp ← Py.getitem data "dt";
  Ok (JObj [
    ("success", JBool true);
    ("city", city);
    ("country", country);
    ("coordinates", JObj [("lat", lat); ("lon", lon)]);
    ("temperature", temperature);
    ("feels_like", feels_like);
    ("temp_min", temp_min);
    ("temp_max", temp_max);
    ("humidity", humidity);
    ("pressure", pressure);
    ("description", description);
    ("main", main);
    ("icon", icon);
    ("wind_speed", wind_speed);
    ("wind_deg", wind_deg);
    ("clouds", clouds);
    ("visibility", visibility);
    ("sunrise", sunrise);
    ("sunset", sunset);
    ("timezone", timezone);
    ("timestamp", timestamp)
  ]).

(** The [except] clauses of [CurrentWeatherView.get], tried in order. *)
Definition current_except (e : exn) : M Response :=
  if is_Timeout e then
    mret (mkResponse (failure "Request timeout. Please try again.")
                     HTTP_408_REQUEST_TIMEOUT)
  else if is_RequestException e then
    mret (mkResponse (failure "Network error. Please check your connection.")
                     HTTP_503_SERVICE_UNAVAILABLE)
  else
    mret (mkResponse (failure "An unexpected error occurred")
                     HTTP_500_INTERNAL_SERVER_ERROR).

(** The body of the [try] statement of [CurrentWeatherView.get]. *)
Definition current_fetch (cfg : Settings) (up : upstream)
    (city cache_key : string) : M Response :=
  let url := WEATHER_API_BASE_URL cfg +:+ "/weather" in
  let params :=
    [("q", JStr city); ("appid", JStr (WEATHER_API_KEY cfg));
     ("units", JStr "metric")] in
  response ← requests_get up url params 10;
  if status_code response =? 200 then
    data ← lift (json_body response);
    weather_data ← lift (current_weather_data data);
    _ ← cache_set cache_key weather_data 1800;
    mret (mkResponse weather_data HTTP_200_OK)
  else if status_code response =? 404 then
    mret (mkResponse
            (failure ("City " +:+ PyStr.dquote +:+ city +:+ PyStr.dquote
                      +:+ " not found"))
            HTTP_404_NOT_FOUND)
  else
    mret (mkResponse (failure "Failed to fetch weather data")
                     HTTP_500_INTERNAL_SERVER_ERROR).

(** [CurrentWeatherView.get] *)
Definition CurrentWeatherView_get (cfg : Settings) (up : upstream)
    (request : Request) : M Response :=
  let city := PyStr.strip (QueryDict_get (query_params request) "city" "") in
  if negb (PyStr.truthy city) then
    mret (mkResponse (failure "City parameter is required")
                     HTTP_400_BAD_REQUEST)
  else
    let cache_key := "weather_current_" +:+ PyStr.lower city in
    cached_data ← cache_get cache_key;
    if Py.truthy cached_data then
      mret (mkResponse cached_data HTTP_200_OK)
    else
      try_except (current_fetch cfg up city cache_key) current_except.

(** One entry of [forecasts], built from one item of the upstream list. *)
Definition forecast_entry (item : json) : result json :=
  datetime ← Py.getitem item "dt";
  date_text ← Py.getitem item "dt_txt";
  temperature ← getitem2 item "main" "temp" ≫= Py.round;
  feels_like ← getitem2 item "main" "feels_like" ≫= Py.round;
  temp_min ← getitem2 item "main" "temp_min" ≫= Py.round;
  temp_max ← getitem2 item "main" "temp_max" ≫= Py.round;
  humidity ← getitem2 item "main" "humidity";
  pressure ← getitem2 item "main" "pressure";
  description ← getitem_first item "weather" "description" ≫= Py.title;
  main ← getitem_first item "weather" "main";
  icon ← getitem_first item "weather" "icon";
  wind_speed ← getitem2 item "wind" "speed" ≫= Py.round1;
  clouds ← getitem2 item "clouds" "all";
  pop ← Py.get item "pop" (JInt 0) ≫= Py.mul100;
  Ok (JObj [
    ("datetime", datetime);
    ("date_text", date_text);
    ("temperature", temperature);
    ("feels_like", feels_like);
    ("temp_min", temp_min);
    ("temp_max", temp_max);
    ("humidity", humidity);
    ("pressure", pressure);
    ("description", description);
    ("main", main);
    ("icon", icon);
    ("wind_speed", wind_speed);
    ("clouds", clouds);
    ("pop", pop)
  ]).

(** The loop [for item in data['list']: forecasts.append({...})], started
    with the entries appended so far. *)
Fixpoint forecast_loop (items : list json) (forecasts : list json)
    : result (list json) :=
  match items with
  | [] => Ok forecasts
  | item :: rest =>
      entry ← forecast_entry item;
      forecast_loop rest (forecasts ++ [entry])
  end.

(** The dictionary [forecast_data] that [ForecastWeatherView.get] builds. *)
Definition forecast_weather_data (data : json) : result json :=
  items ← Py.getitem data "list" ≫= Py.iter;
  forecasts ← forecast_loop items [];
  city ← getitem2 data "city" "name";
  country ← getitem2 data "city" "country";
  lat ← (c ← getitem2 data "city" "coord"; Py.getitem c "lat");
  lon ← (c ← getitem2 data "city" "coord"; Py.getitem c "lon");
  Ok (JObj [
    ("success", JBool true);
    ("city", city);
    ("country", country);
    ("coordinates", JObj [("lat", lat); ("lon", lon)]);
    ("forecasts", JArr forecasts)
  ]).

(** The [except] clauses of [ForecastWeatherView.get], tried in order. *)
Definition forecast_except (e : exn) : M Response :=
  if is_Timeout e then
    mret (mkResponse (failure "Request timeout. Please try again.")
                     HTTP_408_REQUEST_TIMEOUT)
  else
    mret (mkResponse (failure "An unexpected error occurred")
                     HTTP_500_INTERNAL_SERVER_ERROR).

(** The body of the [try] statement of [ForecastWeatherView.get]. *)
Definition forecast_fetch (cfg : Settings) (up : upstream)
    (city cache_key : string) : M Response :=
  let url := WEATHER_API_BASE_URL cfg +:+ "/forecast" in
  let params :=
    [("q", JStr city); ("appid", JStr (WEATHER_API_KEY cfg));
     ("units", JStr "metric"); ("cnt", JInt 40)] in
  response ← requests_get up url params 10;
  if status_code response =? 200 then
    data ← lift (json_body response);
    forecast_data ← lift (forecast_weather_data data);
    _ ← cache_set cache_key forecast_data 1800;
    mret (mkResponse forecast_data HTTP_200_OK)
  else if status_code response =? 404 then
    mret (mkResponse
            (failure ("City " +:+ PyStr.dquote +:+ city +:+ PyStr.dquote
                      +:+ " not found"))
            HTTP_404_NOT_FOUND)
  else
    mret (mkResponse (failure "Failed to fetch forecast data")
                     HTTP_500_INTERNAL_SERVER_ERROR).

(** [ForecastWeatherView.get] *)
Definition ForecastWeatherView_get (cfg : Settings) (up : upstream)
    (request : Request) : M Response :=
  let city := PyStr.strip (QueryDict_get (query_params request) "city" "") in
  if negb (PyStr.truthy city) then
    mret (mkResponse (failure "City parameter is required")
                     HTTP_400_BAD_REQUEST)
  else
    let cache_key := "weather_forecast_" +:+ PyStr.lower city in
    cached_data ← cache_get cache_key;
    if Py.truthy cached_data then
      mret (mkResponse cached_data HTTP_200_OK)
    else
      try_except (forecast_fetch cfg up city cache_key) forecast_except.

(** ** Vocabulary of the specification *)




(** The two operation modes and the cache key each derives from the
    trimmed city. *)
Inductive mode : Type := Current | Forecast.

Definition cacheKey (m : mode) (city : string) : string :=
  match m with
  | Current => "weather_current_" +:+ PyStr.lower city
  | Forecast => "weather_forecast_" +:+ PyStr.lower city
  end.

(** The handler of a mode. *)
Definition handler (m : mode) : Settings -> upstream -> Request -> M Response :=
  match m with
  | Current => CurrentWeatherView_get
  | Forecast => ForecastWeatherView_get
  end.

(** The city a request asks for, trimmed as the handlers trim it. *)
Definition city_of (request : Request) : string :=
  PyStr.strip (QueryDict_get (query_params request) "city" "").

(** The response to a request without a usable city. *)
Definition city_required : Response :=
  mkResponse (failure "City parameter is required") HTTP_400_BAD_REQUEST.

(** The events a computation appended to the trace of [w]. *)
Definition new_events {A} (m : M A) (w : world) : list event :=
  drop (List.length (trace w)) (trace (snd (m w))).

Definition is_write (ev : event) : bool :=
  match ev with CacheSet _ _ _ => true | _ => false end.

Definition is_upstream_call (ev : event) : bool :=
  match ev with RequestsGet _ _ _ => true | _ => false end.

(** ** Sample data *)

Module Sample.

Definition cfg : Settings :=
  mkSettings "https://api.openweathermap.org/data/2.5" "secret".

Definition empty_world : world := mkWorld ∅ 0 [].

Definition weather_entry : json :=
  JArr [JObj [("id", JInt 803); ("main", JStr "Clouds");
              ("description", JStr "broken clouds"); ("icon", JStr "04d")]].

(** A body of the provider's current-weather endpoint. *)
Definition london : json :=
  JObj [
    ("coord", JObj [("lon", JFloat (-0.1257)); ("lat", JFloat 51.5085)]);
    ("weather", weather_entry);
    ("main", JObj [("temp", JFloat 15.6); ("feels_like", JFloat 15.2);
                   ("temp_min", JFloat 14.5); ("temp_max", JInt 17);
                   ("pressure", JInt 1012); ("humidity", JInt 76)]);
    ("visibility", JInt 10000);
    ("wind", JObj [("speed", JFloat 3.47); ("deg", JInt 250)]);
    ("clouds", JObj [("all", JInt 75)]);
    ("dt", JInt 1700000000);
    ("sys", JObj [("country", JStr "GB"); ("sunrise", JInt 1699945000);
                  ("sunset", JInt 1699978000)]);
    ("timezone", JInt 0);
    ("name", JStr "London")
  ].

(** One interval of the provider's forecast endpoint. *)
Definition interval (dt : Z) (pop : list (string * json)) : json :=
  JObj ([
    ("dt", JInt dt);
    ("main", JObj [("temp", JFloat 15.6); ("feels_like", JFloat 15.2);
                   ("temp_min", JFloat 14.5); ("temp_max", JInt 17);
                   ("pressure", JInt 1012); ("humidity", JInt 76)]);
    ("weather", weather_entry);
    ("clouds", JObj [("all", JInt 75)]);
    ("wind", JObj [("speed", JFloat 3.47); ("deg", JInt 250)]);
    ("visibility", JInt 10000)] ++ pop ++ [
    ("dt_txt", JStr "2023-11-14 21:00:00")
  ]).

Definition paris_city : json :=
  JObj [("name", JStr "Paris"); ("country", JStr "FR");
        ("coord", JObj [("lat", JFloat 48.8534); ("lon", JFloat 2.3488)])].

(** A forecast body with the intervals [items]. *)
Definition paris (items : list json) : json :=
  JObj [("cod", JStr "200"); ("list", JArr items); ("city", paris_city)].

(** Forty intervals, three hours apart. *)
Definition forty : list json :=
  map (fun i => interval (1700000000 + 10800 * Z.of_nat i)
                  [("pop", JFloat 0.42)]) (seq 0 40).

(** Providers that answer every call the same way. *)
Definition responds (code : Z) (body : result json) : upstream :=
  fun _ _ _ => mkReply (Ok (mkHttpResponse code body)) 1.

Definition raises (e : exn) (after : Z) : upstream :=
  fun _ _ _ => mkReply (Raise e) after.

Definition ask (city : string) : Request := mkRequest [("city", city)].

(** What the current-weather handler makes of [london]. *)
Definition london_payload : json :=
  JObj [
    ("success", JBool true);
    ("city", JStr "London");
    ("country", JStr "GB");
    ("coordinates", JObj [("lat", JFloat 51.5085); ("lon", JFloat (-0.1257))]);
    ("temperature", JInt 16);
    ("feels_like", JInt 15);
    ("temp_min", JInt 14);
    ("temp_max", JInt 17);
    ("humidity", JInt 76);
    ("pressure", JInt 1012);
    ("description", JStr "Broken Clouds");
    ("main", JStr "Clouds");
    ("icon", JStr "04d");
    ("wind_speed", JFloat 3.5);
    ("wind_deg", JInt 250);
    ("clouds", JInt 75);
    ("visibility", JInt 10000);
    ("sunrise", JInt 1699945000);
    ("sunset", JInt 1699978000);
    ("timezone", JInt 0);
    ("timestamp", JInt 1700000000)
  ].

(** What the forecast handler makes of [interval dt pop]. *)
Definition interval_entry (dt : Z) (pop : json) : json :=
  JObj [
    ("datetime", JInt dt);
    ("date_text", JStr "2023-11-14 21:00:00");
    ("temperature", JInt 16);
    ("feels_like", JInt 15);
    ("temp_min", JInt 14);
    ("temp_max", JInt 17);
    ("humidity", JInt 76);
    ("pressure", JInt 1012);
    ("description", JStr "Broken Clouds");
    ("main", JStr "Clouds");
    ("icon", JStr "04d");
    ("wind_speed", JFloat 3.5);
    ("clouds", JInt 75);
    ("pop", pop)
  ].

(** The world after London was fetched into the empty cache. *)
Definition london_stored : world :=
  snd (CurrentWeatherView_get cfg (responds 200 (Ok london)) (ask "London")
         empty_world).

(** What the forecast handler makes of [paris forty]. *)
Definition paris_payload : json :=
  JObj [
    ("success", JBool true);
    ("city", JStr "Paris");
    ("country", JStr "FR");
    ("coordinates", JObj [("lat", JFloat 48.8534); ("lon", JFloat 2.3488)]);
    ("forecasts",
     JArr (map (fun i => interval_entry (1700000000 + 10800 * Z.of_nat i)
                           (JFloat 42)) (seq 0 40)))
  ].

End Sample.

(** ** The runs of a handler

    Every run of a handler follows one of six paths.  The paths are told
    apart by the city, the cache and the provider's reply, and each fixes
    the response and the world the run ends in. *)

Definition endpoint (m : mode) : string :=
  match m with Current => "/weather" | Forecast => "/forecast" end.

Definition request_url (cfg : Settings) (m : mode) : string :=
  WEATHER_API_BASE_URL cfg +:+ endpoint m.

Definition request_params (cfg : Settings) (m : mode) (city : string)
    : list (string * json) :=
  match m with
  | Current =>
      [("q", JStr city); ("appid", JStr (WEATHER_API_KEY cfg));
       ("units", JStr "metric")]
  | Forecast =>
      [("q", JStr city); ("appid", JStr (WEATHER_API_KEY cfg));
       ("units", JStr "metric"); ("cnt", JInt 40)]
  end.

Definition normalize (m : mode) : json -> result json :=
  match m with
  | Current => current_weather_data
  | Forecast => forecast_weather_data
  end.

Definition except_clauses (m : mode) : exn -> M Response :=
  match m with Current => current_except | Forecast => forecast_except end.

Definition fetch_failed (m : mode) : string :=
  match m with
  | Current => "Failed to fetch weather data"
  | Forecast => "Failed to fetch forecast data"
  end.

Definition not_found (city : string) : Response :=
  mkResponse
    (failure ("City " +:+ PyStr.dquote +:+ city +:+ PyStr.dquote
              +:+ " not found"))
    HTTP_404_NOT_FOUND.

Section Runs.

Variables (cfg : Settings) (up : upstream) (m : mode) (request : Request).

Let city := city_of request.
Let key := cacheKey m city.

(** The provider's reply to the one call the handler can make. *)
Definition reply : upstream_reply :=
  up (request_url cfg m) (request_params cfg m city) 10.

Definition after_lookup (w : world) : world := log_event (CacheGet key) w.

Definition after_call (w : world) : world :=
  advance (elapsed reply)
    (log_event (RequestsGet (request_url cfg m) (request_params cfg m city) 10)
       (after_lookup w)).

Definition after_store (payload : json) (w : world) : world :=
  let w2 := after_call w in
  log_event (CacheSet key payload 1800)
    (mkWorld (<[key := (payload, clock w2 + 1800)]> (cache w2))
             (clock w2) (trace w2)).

(** The cache holds nothing usable for the city. *)
Definition miss (w : world) : Prop :=
  PyStr.truthy city = true
  /\ Py.truthy (default JNull (live_entry w key)) = false.

(** The exception, if any, that the body of the [try] statement raises:
    from the call itself, from decoding a 200 body, or from reshaping
    it. *)
Definition raised_in_try : option exn :=
  match outcome reply with
  | Raise e => Some e
  | Ok r =>
      if status_code r =? 200 then
        match json_body r with
        | Raise e => Some e
        | Ok body =>
            match normalize m body with Raise e => Some e | Ok _ => None end
        end
      else None
  end.

Inductive run_shape (w : world) : result Response * world -> Prop :=
| Run_blank :
    PyStr.truthy city = false ->
    run_shape w (Ok city_required, w)
| Run_hit (cached : json) :
    PyStr.truthy city = true ->
    live_entry w key = Some cached ->
    Py.truthy cached = true ->
    run_shape w (Ok (mkResponse cached HTTP_200_OK), after_lookup w)
| Run_stored (r : HttpResponse) (body payload : json) :
    miss w ->
    outcome reply = Ok r ->
    status_code r = 200 ->
    json_body r = Ok body ->
    normalize m body = Ok payload ->
    run_shape w (Ok (mkResponse payload HTTP_200_OK), after_store payload w)
| Run_not_found (r : HttpResponse) :
    miss w ->
    outcome reply = Ok r ->
    status_code r = 404 ->
    run_shape w (Ok (not_found city), after_call w)
| Run_upstream_error (r : HttpResponse) :
    miss w ->
    outcome reply = Ok r ->
    status_code r <> 200 ->
    status_code r <> 404 ->
    run_shape w
      (Ok (mkResponse (failure (fetch_failed m))
                      HTTP_500_INTERNAL_SERVER_ERROR),
       after_call w)
| Run_raised (e : exn) :
    miss w ->
    raised_in_try = Some e ->
    run_shape w (except_clauses m e (after_call w)).

(** The events a run appends to the trace, shape by shape; a run that
    stores a payload is the only one that writes. *)
Inductive run_events (w : world) : list event -> Prop :=
| Events_none : run_events w []
| Events_lookup : run_events w [CacheGet key]
| Events_call :
    run_events w
      [CacheGet key;
       RequestsGet (request_url cfg m) (request_params cfg m city) 10]
| Events_store (r : HttpResponse) (body payload : json) :
    miss w ->
    outcome reply = Ok r ->
    status_code r = 200 ->
    json_body r = Ok body ->
    normalize m body = Ok payload ->
    handler m cfg up request w
    = (Ok (mkResponse payload HTTP_200_OK), after_store payload w) ->
    run_events w
      [CacheGet key;
       RequestsGet (request_url cfg m) (request_params cfg m city) 10;
       CacheSet key payload 1800].

End Runs.

(** ** The error taxonomy of the specification *)

Inductive error_kind : Type :=
| ValidationError
| NotFoundError
| TimeoutError
| NetworkError
| UpstreamError
| InternalError.

Definition http_status (k : error_kind) : Z :=
  match k with
  | ValidationError => 400
  | NotFoundError => 404
  | TimeoutError => 408
  | NetworkError => 503
  | UpstreamError => 500
  | InternalError => 500
  end.

(** A response that reports an error of kind [k]: the status of the kind
    and a body of the shared error shape. *)
Definition is_error (k : error_kind) (resp : Response) : Prop :=
  status resp = http_status k /\ exists message, data resp = failure message.

(** The responses of the catch-all clause and of the network clause. *)
Definition internal_error : Response :=
  mkResponse (failure "An unexpected error occurred")
             HTTP_500_INTERNAL_SERVER_ERROR.

Definition network_error : Response :=
  mkResponse (failure "Network error. Please check your connection.")
             HTTP_503_SERVICE_UNAVAILABLE.

Definition request_timeout : Response :=
  mkResponse (failure "Request timeout. Please try again.")
             HTTP_408_REQUEST_TIMEOUT.

(** The fields of a dictionary. *)
Definition fields_of (v : json) : list (string * json) :=
  match v with JObj fields => fields | _ => [] end.

(** The keys of a forecast entry, and of the current-weather payload. *)
Definition forecast_entry_keys : list string :=
  ["datetime"; "date_text"; "temperature"; "feels_like"; "temp_min";
   "temp_max"; "humidity"; "pressure"; "description"; "main"; "icon";
   "wind_speed"; "clouds"; "pop"].

Definition current_weather_keys : list string :=
  ["success"; "city"; "country"; "coordinates"; "temperature"; "feels_like";
   "temp_min"; "temp_max"; "humidity"; "pressure"; "description"; "main";
   "icon"; "wind_speed"; "wind_deg"; "clouds"; "visibility"; "sunrise";
   "sunset"; "timezone"; "timestamp"].

(** ** Worlds the handlers can be in *)

(** Every cache entry under a key of mode [m] is a payload that mode
    reshaped from some upstream body. *)
Definition cache_sound (w : world) : Prop :=
  forall m city value expires,
    cache w !! cacheKey m city = Some (value, expires) ->
    exists body, normalize m body = Ok value.

(** The worlds reached from an empty cache by handler runs and the passing
    of time. *)
Inductive reachable : world -> Prop :=
| Reach_start (now : Z) : reachable (mkWorld ∅ now [])
| Reach_run (w : world) (m : mode) (cfg : Settings) (up : upstream)
    (request : Request) :
    reachable w -> reachable (snd (handler m cfg up request w))
| Reach_wait (w : world) (seconds : Z) :
    reachable w -> reachable (advance seconds w).

(** The forecast entries a response carries. *)
Definition forecasts_of (resp : Response) : option (list json) :=
  match Py.assoc "forecasts" (fields_of (data resp)) with
  | Some (JArr entries) => Some entries
  | _ => None
  end.

(** The fields a forecast entry has in common with the current-weather
    payload. *)
Definition shared_keys : list string :=
  ["temperature"; "feels_like"; "temp_min"; "temp_max"; "humidity";
   "pressure"; "description"; "main"; "icon"; "wind_speed"; "clouds"].

Definition has_key (k : string) (keys : list string) : bool :=
  existsb (String.eqb k) keys.

(** ** Rounding, as the specification words it *)




(** ** The health check and the URL configuration

    [HealthCheckView.get] of [weather/views.py], the [home] view of
    [weather_backend/urls.py], and the two [urlpatterns] lists. *)















(** ** Fields the reshaping needs *)

(** The top-level fields of a current-weather body that are subscripted,
    and the fields of its [main] dictionary that are. *)
Definition current_required_keys : list string :=
  ["name"; "sys"; "coord"; "main"; "weather"; "wind"; "clouds"; "timezone";
   "dt"].

(** The top-level fields of a forecast interval that are subscripted. *)
Definition interval_required_keys : list string :=
  ["dt"; "dt_txt"; "main"; "weather"; "wind"; "clouds"].

(** The fields of the current-weather payload that are copied from the
    upstream body as they are, with where each comes from. *)
Definition copied_fields (body : json) : list (string * result json) :=
  [("city", Py.getitem body "name");
   ("country", getitem2 body "sys" "country");
   ("humidity", getitem2 body "main" "humidity");
   ("pressure", getitem2 body "main" "pressure");
   ("main", getitem_first body "weather" "main");
   ("icon", getitem_first body "weather" "icon");
   ("clouds", getitem2 body "clouds" "all");
   ("sunrise", getitem2 body "sys" "sunrise");
   ("sunset", getitem2 body "sys" "sunset");
   ("timezone", Py.getitem body "timezone");
   ("timestamp", Py.getitem body "dt")].

(** A string with no whitespace at either end. *)
Definition trimmed (s : string) : Prop := PyStr.strip s = s.

(** The test that tells a miss: a usable city, and nothing live and truthy
    under its key. *)
Definition misses (m : mode) (request : Request) (w : world) : bool :=
  PyStr.truthy (city_of request)
  && negb (Py.truthy
             (default JNull (live_entry w (cacheKey m (city_of request))))).

(** ** Worlds and providers for the further properties *)

Module Scenario.

(** A cache whose London entry is not a weather payload. *)
Definition garbage_world : world :=
  mkWorld {[ "weather_current_london" := (JStr "left by someone else", 5000) ]}
          0 [].

(** A cache whose London entry expired at the present instant. *)
Definition stale_world : world :=
  mkWorld {[ "weather_current_london" := (Sample.london_payload, 7200) ]}
          7200 [].

(** A 404 reply whose body cannot even be decoded. *)
Definition not_found_reply : upstream :=
  fun _ _ _ => mkReply (Ok (mkHttpResponse 404 (Raise ValueError))) 1.

(** A 200 reply whose body cannot be decoded, the decoder raising a
    [requests] exception. *)
Definition undecodable_reply : upstream :=
  fun _ _ _ => mkReply (Ok (mkHttpResponse 200 (Raise RequestException))) 1.

(** A London body without the [wind] dictionary. *)
Definition windless : json :=
  JObj (List.filter (fun kv => negb (String.eqb (fst kv) "wind"))
          (fields_of Sample.london)).

(** A London body without [visibility] and without [wind.deg]. *)
Definition sparse : json :=
  JObj (("wind", JObj [("speed", JFloat 3.47)])
        :: List.filter (fun kv => negb (String.eqb (fst kv) "wind")
                                  && negb (String.eqb (fst kv) "visibility"))
             (fields_of Sample.london)).

(** What the current-weather handler makes of [sparse]. *)
Definition sparse_payload : json :=
  JObj [
    ("success", JBool true);
    ("city", JStr "London");
    ("country", JStr "GB");
    ("coordinates", JObj [("lat", JFloat 51.5085); ("lon", JFloat (-0.1257))]);
    ("temperature", JInt 16);
    ("feels_like", JInt 15);
    ("temp_min", JInt 14);
    ("temp_max", JInt 17);
    ("humidity", JInt 76);
    ("pressure", JInt 1012);
    ("description", JStr "Broken Clouds");
    ("main", JStr "Clouds");
    ("icon", JStr "04d");
    ("wind_speed", JFloat 3.5);
    ("wind_deg", JInt 0);
    ("clouds", JInt 75);
    ("visibility", JInt 0);
    ("sunrise", JInt 1699945000);
    ("sunset", JInt 1699978000);
    ("timezone", JInt 0);
    ("timestamp", JInt 1700000000)
  ].

End Scenario.



(** A forecast body of two intervals, the second of which has no
    [main]. *)
Definition broken_forecast : json :=
  Sample.paris [Sample.interval 1700000000 [];
                JObj [("dt", JInt 1700010800);
                      ("dt_txt", JStr "2023-11-15 00:00:00")]].

(** No entry is set to expire more than 1800 seconds from now. *)
Definition expiry_bounded (w : world) : Prop :=
  forall key value expires,
    cache w !! key = Some (value, expires) -> expires <= clock w + 1800.

(** The forecast payload for a city and its entries. *)
Definition forecast_payload (name country lat lon : json)
    (entries : list json) : json :=
  JObj [("success", JBool true); ("city", name); ("country", country);
        ("coordinates", JObj [("lat", lat); ("lon", lon)]);
        ("forecasts", JArr entries)].

(** * Properties *)

(** ** Strings *)

Section StringFacts.








End StringFacts.

(** ** Validation *)

Section Validation.

Variables (cfg : Settings) (up : upstream).

Lemma blank_city_current (request : Request) (w : world) :
  PyStr.truthy (city_of request) = false ->
  CurrentWeatherView_get cfg up request w = (Ok city_required, w).
Proof.
  unfold CurrentWeatherView_get, city_of. intros ->. reflexivity.
Qed.

Lemma blank_city_forecast (request : Request) (w : world) :
  PyStr.truthy (city_of request) = false ->
  ForecastWeatherView_get cfg up request w = (Ok city_required, w).
Proof.
  unfold ForecastWeatherView_get, city_of. intros ->. reflexivity.
Qed.

Lemma QueryDict_get_absent (q : list (string * string)) (key d : string) :
  Forall (fun kv => fst kv <> key) q -> QueryDict_get q key d = d.
Proof.
  induction 1 as [|[k v] q Hk _ IH]; simpl; [reflexivity|].
  simpl in Hk. apply String.eqb_neq in Hk. now rewrite Hk.
Qed.

End Validation.



(** C10. A request that carries no [city] parameter at all is handled as
    one whose city is the empty string: the parameter defaults to the empty
    string and both handlers answer with the same validation error, status
    400, leaving the world untouched. *)
Theorem missing_city_is_empty_city
    (cfg : Settings) (up : upstream) (request : Request) (w : world) :
  Forall (fun kv => fst kv <> "city") (query_params request) ->
  QueryDict_get (query_params request) "city" "" = ""
  /\ CurrentWeatherView_get cfg up request w
     = CurrentWeatherView_get cfg up (mkRequest [("city", "")]) w
  /\ ForecastWeatherView_get cfg up request w
     = ForecastWeatherView_get cfg up (mkRequest [("city", "")]) w
  /\ CurrentWeatherView_get cfg up request w = (Ok city_required, w)
  /\ ForecastWeatherView_get cfg up request w = (Ok city_required, w)
  /\ status city_required = 400.
Proof.
  intros H. apply (QueryDict_get_absent _ "city" "") in H.
  assert (Hb : PyStr.truthy (city_of request) = false)
    by (unfold city_of; now rewrite H).
  rewrite (blank_city_current cfg up request w Hb).
  rewrite (blank_city_forecast cfg up request w Hb).
  repeat split; assumption || reflexivity.
Qed.

Lemma missing_city_witness :
  Forall (fun kv => fst kv <> "city")
         (query_params (mkRequest [("units", "metric")]))
  /\ ForecastWeatherView_get Sample.cfg (Sample.raises Timeout 10)
       (mkRequest [("units", "metric")]) Sample.empty_world
     = (Ok city_required, Sample.empty_world).
Proof.
  assert (H : Forall (fun kv : string * string => fst kv <> "city")
                (query_params (mkRequest [("units", "metric")]))).
  { repeat constructor. discriminate. }
  split; [exact H|].
  apply (missing_city_is_empty_city Sample.cfg (Sample.raises Timeout 10)
           (mkRequest [("units", "metric")]) Sample.empty_world H).
Defined.

(** ** Every run has one of the six shapes *)

Section RunShape.

Variables (cfg : Settings) (up : upstream).

Ltac unfold_M :=
  unfold try_except, requests_get, cache_get, cache_set, lift,
    mbind, mret, M_bind, M_ret.

Lemma current_run_unfold (request : Request) (w : world) :
  PyStr.truthy (city_of request) = true ->
  CurrentWeatherView_get cfg up request w =
    let key := cacheKey Current (city_of request) in
    let cached := default JNull (live_entry w key) in
    if Py.truthy cached then
      (Ok (mkResponse cached HTTP_200_OK), after_lookup Current request w)
    else
      try_except (current_fetch cfg up (city_of request) key) current_except
        (after_lookup Current request w).
Proof.
  unfold CurrentWeatherView_get, city_of. intros ->. unfold_M. simpl.
  now destruct (Py.truthy _).
Qed.

Lemma forecast_run_unfold (request : Request) (w : world) :
  PyStr.truthy (city_of request) = true ->
  ForecastWeatherView_get cfg up request w =
    let key := cacheKey Forecast (city_of request) in
    let cached := default JNull (live_entry w key) in
    if Py.truthy cached then
      (Ok (mkResponse cached HTTP_200_OK), after_lookup Forecast request w)
    else
      try_except (forecast_fetch cfg up (city_of request) key) forecast_except
        (after_lookup Forecast request w).
Proof.
  unfold ForecastWeatherView_get, city_of. intros ->. unfold_M. simpl.
  now destruct (Py.truthy _).
Qed.

(** A live entry that counts as a hit is returned as it is. *)
Lemma truthy_live_entry (w : world) (key : string) :
  Py.truthy (default JNull (live_entry w key)) = true ->
  exists cached, live_entry w key = Some cached
                 /\ default JNull (live_entry w key) = cached
                 /\ Py.truthy cached = true.
Proof.
  destruct (live_entry w key) as [v|]; simpl; [eauto | discriminate].
Qed.

Lemma run_shape_total (m : mode) (request : Request) (w : world) :
  run_shape cfg up m request w (handler m cfg up request w).
Proof.
  destruct (PyStr.truthy (city_of request)) eqn:Hcity.
  2:{ destruct m; simpl.
      - rewrite blank_city_current by assumption. now constructor.
      - rewrite blank_city_forecast by assumption. now constructor. }
  assert (Hrun : handler m cfg up request w =
    let key := cacheKey m (city_of request) in
    let cached := default JNull (live_entry w key) in
    if Py.truthy cached then
      (Ok (mkResponse cached HTTP_200_OK), after_lookup m request w)
    else
      try_except
        (match m with
         | Current => current_fetch cfg up (city_of request) key
         | Forecast => forecast_fetch cfg up (city_of request) key
         end) (except_clauses m) (after_lookup m request w)).
  { destruct m; simpl;
      [now apply current_run_unfold | now apply forecast_run_unfold]. }
  rewrite Hrun; clear Hrun. cbv zeta.
  destruct (Py.truthy (default JNull (live_entry w _))) eqn:Hhit.
  { apply truthy_live_entry in Hhit as (cached & Hlive & -> & Htruthy).
    now apply Run_hit. }
  assert (Hmiss : miss m request w) by (split; assumption).
  pose proof (Run_raised cfg up m request w) as Hraised.
  pose proof (Run_stored cfg up m request w) as Hstored.
  pose proof (Run_not_found cfg up m request w) as Hnf.
  pose proof (Run_upstream_error cfg up m request w) as Hue.
  unfold raised_in_try, after_store, after_call, reply in *.
  destruct m; simpl in *;
    unfold current_fetch, forecast_fetch; unfold_M; simpl;
    (destruct (outcome (up _ _ _)) as [r|e] eqn:Hout;
       [| now apply Hraised]);
    (destruct (status_code r =? 200) eqn:H200;
     [ apply Z.eqb_eq in H200;
       destruct (json_body r) as [body|e] eqn:Hbody; [| now apply Hraised];
       match goal with
       | |- context [current_weather_data body] =>
           destruct (current_weather_data body) as [payload|e] eqn:Hnorm
       | |- context [forecast_weather_data body] =>
           destruct (forecast_weather_data body) as [payload|e] eqn:Hnorm
       end;
       [ now apply (Hstored r body payload) | now apply Hraised ]
     | apply Z.eqb_neq in H200;
       destruct (status_code r =? 404) eqn:H404;
       [ apply Z.eqb_eq in H404; now apply (Hnf r)
       | apply Z.eqb_neq in H404; now apply (Hue r) ] ]).
Qed.

End RunShape.

(** ** Which shape a run takes *)

Section RunCases.

Variables (cfg : Settings) (up : upstream) (m : mode) (request : Request).

Ltac clash :=
  unfold miss, raised_in_try in *;
  repeat match goal with
    | H : _ /\ _ |- _ => destruct H
    | H : ?x = _ |- context [?x] => rewrite H
    | H : ?x = _, H' : context [?x] |- _ => rewrite H in H'
    | H : (?a =? ?b) = _ |- _ => first [apply Z.eqb_eq in H | apply Z.eqb_neq in H]
    end;
  simpl in *; try congruence; try lia.

Lemma status_test (r : HttpResponse) (code : Z) :
  status_code r = code -> (status_code r =? code) = true.
Proof. intros ->. apply Z.eqb_refl. Qed.

Lemma run_when_hit (w : world) (cached : json) :
  PyStr.truthy (city_of request) = true ->
  live_entry w (cacheKey m (city_of request)) = Some cached ->
  Py.truthy cached = true ->
  handler m cfg up request w
  = (Ok (mkResponse cached HTTP_200_OK), after_lookup m request w).
Proof.
  intros Hcity Hlive Htruthy.
  destruct (run_shape_total cfg up m request w); clash.
Qed.

Lemma run_when_stored (w : world) (r : HttpResponse) (body payload : json) :
  miss m request w ->
  outcome (reply cfg up m request) = Ok r ->
  status_code r = 200 ->
  json_body r = Ok body ->
  normalize m body = Ok payload ->
  handler m cfg up request w
  = (Ok (mkResponse payload HTTP_200_OK),
     after_store cfg up m request payload w).
Proof.
  intros Hmiss Hout Hcode Hbody Hnorm.
  pose proof (status_test r 200 Hcode) as Htest.
  destruct (run_shape_total cfg up m request w); clash.
Qed.

Lemma run_when_raised (w : world) (e : exn) :
  miss m request w ->
  raised_in_try cfg up m request = Some e ->
  handler m cfg up request w
  = except_clauses m e (after_call cfg up m request w).
Proof.
  intros Hmiss Hraised.
  destruct (run_shape_total cfg up m request w) as
    [ | | r body payload ? Hout Hcode Hbody Hnorm
      | r ? Hout Hcode | r ? Hout Hcode Hcode' | ];
    try pose proof (status_test r _ Hcode) as Htest; clash.
  - destruct (status_code r =? 200) eqn:E; clash.
Qed.

End RunCases.

(** ** The except clauses *)

Section ExceptClauses.

Lemma current_except_run (e : exn) (w : world) :
  current_except e w =
    (Ok (if is_Timeout e then request_timeout
         else if is_RequestException e then network_error
         else internal_error), w).
Proof. now destruct e. Qed.

Lemma forecast_except_run (e : exn) (w : world) :
  forecast_except e w =
    (Ok (if is_Timeout e then request_timeout else internal_error), w).
Proof. now destruct e. Qed.

Lemma except_clauses_unexpected (m : mode) (e : exn) (w : world) :
  is_RequestException e = false ->
  except_clauses m e w = (Ok internal_error, w).
Proof. destruct m, e; simpl; intros H; congruence || reflexivity. Qed.

Lemma is_error_failure (k : error_kind) (message : string) :
  is_error k (mkResponse (failure message) (http_status k)).
Proof. split; [reflexivity | now exists message]. Qed.

Lemma except_clauses_answer (m : mode) (e : exn) (w : world) :
  exists resp k,
    except_clauses m e w = (Ok resp, w) /\ is_error k resp
    /\ status resp <> 200.
Proof.
  pose proof (is_error_failure TimeoutError) as Ht.
  pose proof (is_error_failure NetworkError) as Hn.
  pose proof (is_error_failure InternalError) as Hi.
  destruct m; simpl;
    [rewrite current_except_run | rewrite forecast_except_run];
    destruct e; simpl;
    first
      [ exists request_timeout, TimeoutError;
        split; [reflexivity | split; [apply Ht | discriminate]]
      | exists network_error, NetworkError;
        split; [reflexivity | split; [apply Hn | discriminate]]
      | exists internal_error, InternalError;
        split; [reflexivity | split; [apply Hi | discriminate]] ].
Qed.

End ExceptClauses.



(** ** What a run does to the world *)

Section Effects.

Variables (cfg : Settings) (up : upstream) (m : mode) (request : Request).

Let key := cacheKey m (city_of request).
Let call :=
  RequestsGet (request_url cfg m) (request_params cfg m (city_of request)) 10.

Lemma trace_after_lookup (w : world) :
  trace (after_lookup m request w) = trace w ++ [CacheGet key].
Proof. reflexivity. Qed.

Lemma trace_after_call (w : world) :
  trace (after_call cfg up m request w) = trace w ++ [CacheGet key; call].
Proof. simpl. now rewrite <- app_assoc. Qed.

Lemma trace_after_store (payload : json) (w : world) :
  trace (after_store cfg up m request payload w)
  = trace w ++ [CacheGet key; call; CacheSet key payload 1800].
Proof. simpl. now rewrite <- !app_assoc. Qed.

Lemma appended (w : world) (evs : list event) :
  drop (List.length (trace w)) (trace w ++ evs) = evs.
Proof. apply drop_app_length. Qed.

Lemma run_events_total (w : world) :
  run_events cfg up m request w (new_events (handler m cfg up request) w).
Proof.
  unfold new_events.
  destruct (run_shape_total cfg up m request w) as
    [ | | r body payload Hmiss Hout Hcode Hbody Hnorm | | | e Hmiss Hraised ];
    simpl snd.
  - rewrite drop_all. constructor.
  - rewrite trace_after_lookup, appended. constructor.
  - rewrite trace_after_store, appended.
    apply (Events_store cfg up m request w r body payload); try assumption.
    now apply (run_when_stored cfg up m request w r body payload).
  - rewrite trace_after_call, appended. constructor.
  - rewrite trace_after_call, appended. constructor.
  - destruct (except_clauses_answer m e (after_call cfg up m request w))
      as (resp & k & -> & _).
    simpl snd. rewrite trace_after_call, appended. constructor.
Qed.

(** A write is the last step of a run that found a 200 reply and could
    reshape its body. *)
Lemma write_implies_stored (w : world) (k : string) (v : json) (t : Z) :
  In (CacheSet k v t) (new_events (handler m cfg up request) w) ->
  exists r body,
    miss m request w
    /\ outcome (reply cfg up m request) = Ok r
    /\ status_code r = 200
    /\ json_body r = Ok body
    /\ normalize m body = Ok v
    /\ k = key /\ t = 1800
    /\ handler m cfg up request w
       = (Ok (mkResponse v HTTP_200_OK), after_store cfg up m request v w).
Proof.
  intros Hin.
  destruct (run_events_total w) as [ | | | r body payload ]; simpl in Hin;
    try (intuition discriminate).
  destruct Hin as [Hin | [Hin | [Hin | []]]]; try discriminate.
  injection Hin as <- <- <-. exists r, body. auto 10.
Qed.

(** A run that answers with anything but status 200 wrote nothing. *)
Lemma error_run_leaves_cache (w w' : world) (resp : Response) :
  handler m cfg up request w = (Ok resp, w') ->
  status resp <> 200 ->
  List.filter is_write (new_events (handler m cfg up request) w) = []
  /\ cache w' = cache w.
Proof.
  unfold new_events.
  destruct (run_shape_total cfg up m request w) as
    [ | | | | | e Hmiss Hraised ]; simpl snd.
  - intros [= <- <-] _. rewrite drop_all. now split.
  - intros [= <- <-] Hs. now contradiction Hs.
  - intros [= <- <-] Hs. now contradiction Hs.
  - intros [= <- <-] _. rewrite trace_after_call, appended. now split.
  - intros [= <- <-] _. rewrite trace_after_call, appended. now split.
  - destruct (except_clauses_answer m e (after_call cfg up m request w))
      as (resp' & k & -> & _).
    intros [= <- <-] _. simpl snd.
    rewrite trace_after_call, appended. now split.
Qed.

End Effects.

(** C3. A run that ends in any response other than status 200 (the
    validation error, not found, upstream error, timeout, network error or
    internal error) performs no cache write and leaves the cache as it was.
    A cache write happens only when the provider answered 200 and the body
    could be reshaped; it stores the normalized payload, which is also the
    body of the response, under the key of the city with a time-to-live of
    1800 seconds, and it is the only write of the run. *)
Theorem cache_written_only_on_upstream_success
    (cfg : Settings) (up : upstream) (m : mode) (request : Request)
    (w : world) :
  (forall resp w',
      handler m cfg up request w = (Ok resp, w') ->
      status resp <> 200 ->
      List.filter is_write (new_events (handler m cfg up request) w) = []
      /\ cache w' = cache w)
  /\ (forall k v t,
        In (CacheSet k v t) (new_events (handler m cfg up request) w) ->
        exists r body,
          outcome (reply cfg up m request) = Ok r
          /\ status_code r = 200
          /\ json_body r = Ok body
          /\ normalize m body = Ok v
          /\ k = cacheKey m (city_of request) /\ t = 1800
          /\ handler m cfg up request w
             = (Ok (mkResponse v HTTP_200_OK),
                after_store cfg up m request v w)
          /\ List.filter is_write (new_events (handler m cfg up request) w)
             = [CacheSet k v t]).
Proof.
  split.
  - intros resp w'. apply error_run_leaves_cache.
  - intros k v t Hin.
    destruct (write_implies_stored cfg up m request w k v t Hin)
      as (r & body & Hmiss & Hout & Hcode & Hbody & Hnorm & -> & -> & Hrun).
    exists r, body. repeat (split; [assumption || reflexivity|]).
    unfold new_events. rewrite Hrun. simpl snd.
    now rewrite trace_after_store, appended.
Qed.

Lemma timeout_writes_nothing :
  List.filter is_write
    (new_events (handler Forecast Sample.cfg (Sample.raises Timeout 10)
                   (Sample.ask "Paris")) Sample.empty_world) = []
  /\ status request_timeout <> 200.
Proof.
  assert (Hs : status request_timeout <> 200) by discriminate.
  split; [|exact Hs].
  eapply (cache_written_only_on_upstream_success Sample.cfg
            (Sample.raises Timeout 10) Forecast (Sample.ask "Paris")
            Sample.empty_world);
    [vm_compute; reflexivity | exact Hs].
Defined.

(** ** Reshaped payloads *)

Section Payloads.

Lemma bind_Ok {A B} (f : A -> result B) (r : result A) (b : B) :
  r ≫= f = Ok b -> exists a, r = Ok a /\ f a = Ok b.
Proof. destruct r as [a|e]; [eauto | discriminate]. Qed.

(** Peel the binds of a successful reshaping, one value at a time. *)
Ltac peel H :=
  repeat (apply bind_Ok in H as (? & ? & H));
  injection H as <-.

Lemma current_weather_data_keys (body payload : json) :
  current_weather_data body = Ok payload ->
  map fst (fields_of payload) = current_weather_keys.
Proof. unfold current_weather_data. intros H. peel H. reflexivity. Qed.

Lemma forecast_entry_fields (item entry : json) :
  forecast_entry item = Ok entry ->
  entry = JObj (fields_of entry)
  /\ map fst (fields_of entry) = forecast_entry_keys.
Proof. unfold forecast_entry. intros H. peel H. now split. Qed.

Lemma forecast_weather_data_forecasts (body payload : json) :
  forecast_weather_data body = Ok payload ->
  exists items entries,
    Py.getitem body "list" ≫= Py.iter = Ok items
    /\ forecast_loop items [] = Ok entries
    /\ Py.assoc "forecasts" (fields_of payload) = Some (JArr entries)
    /\ Py.truthy payload = true.
Proof.
  unfold forecast_weather_data. intros H.
  apply bind_Ok in H as (items & Hitems & H).
  apply bind_Ok in H as (entries & Hentries & H).
  peel H. exists items, entries. now repeat split.
Qed.


(** The loop appends one entry per item, in the order of the items. *)
Lemma forecast_loop_entries (items acc entries : list json) :
  forecast_loop items acc = Ok entries ->
  exists new,
    entries = acc ++ new
    /\ Forall2 (fun item entry => forecast_entry item = Ok entry) items new.
Proof.
  revert acc. induction items as [|item items IH]; simpl; intros acc H.
  - injection H as <-. exists []. split; [now rewrite app_nil_r | constructor].
  - apply bind_Ok in H as (entry & Hentry & H).
    apply IH in H as (new & -> & Hnew).
    exists (entry :: new). split; [now rewrite <- app_assoc | now constructor].
Qed.

(** Conversely the loop succeeds as soon as every item can be reshaped. *)
Lemma forecast_loop_succeeds (items acc new : list json) :
  Forall2 (fun item entry => forecast_entry item = Ok entry) items new ->
  forecast_loop items acc = Ok (acc ++ new).
Proof.
  intros H. revert acc.
  induction H as [|item entry items new Hentry _ IH]; simpl; intros acc.
  - now rewrite app_nil_r.
  - rewrite Hentry. simpl. rewrite IH. now rewrite <- app_assoc.
Qed.

End Payloads.

(** ** Cache keys *)

Section CacheKeys.



Lemma cacheKey_namespaced (c1 c2 : string) :
  cacheKey Current c1 <> cacheKey Forecast c2.
Proof. unfold cacheKey. simpl. intros H. discriminate H. Qed.


End CacheKeys.



(** ** Repeated calls *)

Section Repeated.

Variables (cfg : Settings) (up : upstream) (m : mode) (request : Request).

Lemma live_after_store (payload : json) (w w2 : world) :
  let key := cacheKey m (city_of request) in
  let w1 := after_store cfg up m request payload w in
  cache w2 !! key = cache w1 !! key ->
  clock w2 < clock w1 + 1800 ->
  live_entry w2 key = Some payload.
Proof.
  intros key w1 Hcache Hclock. unfold live_entry. rewrite Hcache.
  subst w1. unfold after_store in *. simpl in *.
  rewrite lookup_insert_eq.
  apply Z.ltb_lt in Hclock. now rewrite Hclock.
Qed.

End Repeated.



(** ** The cache invariant *)

Section Invariant.

Lemma cacheKey_mode (m m' : mode) (c c' : string) :
  cacheKey m c = cacheKey m' c' -> m = m'.
Proof.
  destruct m, m'; intros H; try reflexivity;
    [ now apply cacheKey_namespaced in H
    | symmetry in H; now apply cacheKey_namespaced in H ].
Qed.

Lemma live_entry_stored (w : world) (key : string) (value : json) :
  live_entry w key = Some value ->
  exists expires, cache w !! key = Some (value, expires).
Proof.
  unfold live_entry. destruct (cache w !! key) as [[v e]|]; [|discriminate].
  destruct (clock w <? e); [|discriminate]. intros [= <-]. eauto.
Qed.

Lemma store_keeps_sound (cfg : Settings) (up : upstream) (m : mode)
    (request : Request) (w : world) (body payload : json) :
  cache_sound w ->
  normalize m body = Ok payload ->
  cache_sound (after_store cfg up m request payload w).
Proof.
  intros Hsound Hnorm m' city value expires. unfold after_store. simpl.
  destruct (decide (cacheKey m (city_of request) = cacheKey m' city))
    as [Heq|Hne].
  - rewrite <- Heq, lookup_insert_eq. intros [= <- <-].
    apply cacheKey_mode in Heq as <-. eauto.
  - rewrite lookup_insert_ne by assumption. apply Hsound.
Qed.

Lemma handler_keeps_sound (cfg : Settings) (up : upstream) (m : mode)
    (request : Request) (w : world) :
  cache_sound w -> cache_sound (snd (handler m cfg up request w)).
Proof.
  intros Hsound.
  destruct (run_shape_total cfg up m request w) as
    [ | | r body payload ? ? ? ? Hnorm | | | e ? ? ]; simpl snd;
    try exact Hsound.
  - now apply (store_keeps_sound cfg up m request w body payload).
  - destruct (except_clauses_answer m e (after_call cfg up m request w))
      as (resp & k & -> & _).
    exact Hsound.
Qed.

Lemma reachable_sound (w : world) : reachable w -> cache_sound w.
Proof.
  induction 1 as [now | w m cfg up request _ IH | w seconds _ IH].
  - intros m city value expires. simpl. now rewrite lookup_empty.
  - now apply handler_keeps_sound.
  - exact IH.
Qed.

(** In a sound world the body of a 200 response is a payload of the
    handler's mode; when the run fetched it, it was reshaped from the
    body the provider sent in this run. *)
Lemma success_is_payload (cfg : Settings) (up : upstream) (m : mode)
    (request : Request) (w w' : world) (resp : Response) :
  cache_sound w ->
  handler m cfg up request w = (Ok resp, w') ->
  status resp = 200 ->
  exists body,
    normalize m body = Ok (data resp)
    /\ (miss m request w ->
        exists r, outcome (reply cfg up m request) = Ok r
                  /\ status_code r = 200 /\ json_body r = Ok body).
Proof.
  intros Hsound.
  destruct (run_shape_total cfg up m request w) as
    [ | cached Hcity Hlive Htruthy | r body payload Hmiss Hout Hcode Hbody Hnorm
      | | | e ? ? ].
  - intros [= <- <-]. discriminate.
  - intros [= <- <-] _.
    apply live_entry_stored in Hlive as Hstored. destruct Hstored as (expires & Hstored).
    destruct (Hsound m _ _ _ Hstored) as (body & Hbody).
    exists body. split; [exact Hbody|].
    intros [_ Hmiss]. rewrite Hlive in Hmiss. simpl in Hmiss. congruence.
  - intros [= <- <-] _. exists body. split; [exact Hnorm|]. eauto.
  - intros [= <- <-]. discriminate.
  - intros [= <- <-]. discriminate.
  - destruct (except_clauses_answer m e (after_call cfg up m request w))
      as (resp' & k & -> & _ & Hstatus).
    intros [= <- <-]. contradiction.
Qed.

End Invariant.

(** C1. When the provider cannot be reached and [requests.get] raises a
    [RequestException] that is not a [Timeout], the forecast handler has no
    clause for it: the catch-all clause answers with the internal error,
    status 500, where the current-weather handler answers the same failure
    with the network error, status 503. *)
Theorem forecast_network_failure_is_answered_500
    (cfg : Settings) (up : upstream) (request : Request) (w : world)
    (e : exn) :
  miss Forecast request w ->
  outcome (reply cfg up Forecast request) = Raise e ->
  is_RequestException e = true ->
  is_Timeout e = false ->
  ForecastWeatherView_get cfg up request w
  = (Ok internal_error, after_call cfg up Forecast request w)
  /\ status internal_error = 500
  /\ (forall up_c w_c,
        miss Current request w_c ->
        outcome (reply cfg up_c Current request) = Raise e ->
        CurrentWeatherView_get cfg up_c request w_c
        = (Ok network_error, after_call cfg up_c Current request w_c))
  /\ status network_error = 503.
Proof.
  intros Hmiss Hout Hreq Htimeout. split; [|split; [reflexivity | split; [|reflexivity]]].
  - change (ForecastWeatherView_get cfg up request w)
      with (handler Forecast cfg up request w).
    rewrite (run_when_raised cfg up Forecast request w e Hmiss)
      by (unfold raised_in_try; now rewrite Hout).
    simpl. rewrite forecast_except_run. now rewrite Htimeout.
  - intros up_c w_c Hmiss_c Hout_c.
    change (CurrentWeatherView_get cfg up_c request w_c)
      with (handler Current cfg up_c request w_c).
    rewrite (run_when_raised cfg up_c Current request w_c e Hmiss_c)
      by (unfold raised_in_try; now rewrite Hout_c).
    simpl. rewrite current_except_run. now rewrite Htimeout, Hreq.
Qed.

Lemma forecast_connection_refused_is_500 :
  ForecastWeatherView_get Sample.cfg (Sample.raises ConnectionError 0)
    (Sample.ask "Paris") Sample.empty_world
  = (Ok internal_error,
     after_call Sample.cfg (Sample.raises ConnectionError 0) Forecast
       (Sample.ask "Paris") Sample.empty_world)
  /\ status internal_error = 500.
Proof.
  assert (H := forecast_network_failure_is_answered_500 Sample.cfg
                 (Sample.raises ConnectionError 0) (Sample.ask "Paris")
                 Sample.empty_world ConnectionError).
  split; apply H; try reflexivity; split; vm_compute; reflexivity.
Defined.

(** ** Forecast entries *)

Section ForecastEntries.

Lemma forecast_entry_datetime (item entry : json) :
  forecast_entry item = Ok entry ->
  Py.getitem entry "datetime" = Py.getitem item "dt".
Proof.
  unfold forecast_entry. intros H.
  apply bind_Ok in H as (dt & Hdt & H).
  repeat (apply bind_Ok in H as (? & ? & H)). injection H as <-.
  now rewrite Hdt.
Qed.

Lemma forecasts_of_payload (resp : Response) (entries : list json) :
  Py.assoc "forecasts" (fields_of (data resp)) = Some (JArr entries) ->
  forecasts_of resp = Some entries.
Proof. unfold forecasts_of. now intros ->. Qed.

(** The entries of a forecast payload against the items it was reshaped
    from. *)
Lemma forecast_payload_entries (body payload : json) :
  forecast_weather_data body = Ok payload ->
  exists items entries,
    Py.getitem body "list" ≫= Py.iter = Ok items
    /\ Py.assoc "forecasts" (fields_of payload) = Some (JArr entries)
    /\ Forall2 (fun item entry => forecast_entry item = Ok entry)
         items entries.
Proof.
  intros H.
  apply forecast_weather_data_forecasts in H
    as (items & entries & Hitems & Hloop & Hassoc & _).
  apply forecast_loop_entries in Hloop as (new & -> & Hnew).
  exists items, new. now repeat split.
Qed.

(** The fields the two reshapings have in common are computed alike. *)
Lemma shared_fields_agree (x payload entry : json) :
  current_weather_data x = Ok payload ->
  forecast_entry x = Ok entry ->
  Forall (fun k => Py.assoc k (fields_of entry)
                   = Py.assoc k (fields_of payload)) shared_keys.
Proof.
  unfold current_weather_data, forecast_entry. intros Hc Hf.
  repeat (apply bind_Ok in Hc as (? & ? & Hc)). injection Hc as <-.
  repeat (apply bind_Ok in Hf as (? & ? & Hf)). injection Hf as <-.
  repeat constructor; simpl; congruence.
Qed.

End ForecastEntries.

(** C2, as the code has it.  Every entry of a successful forecast response
    is a dictionary with exactly fourteen fields: datetime, date_text,
    temperature, feels_like, temp_min, temp_max, humidity, pressure,
    description, main, icon, wind_speed, clouds and pop.  Of the fields of
    the current-weather payload it has the eleven from temperature to
    clouds, each computed by the same rule; wind_deg and visibility are not
    among them.  It adds datetime, date_text and the precipitation
    probability pop. *)
Theorem forecast_entries_have_fourteen_fields
    (cfg : Settings) (up : upstream) (request : Request) (w w' : world)
    (resp : Response) :
  reachable w ->
  ForecastWeatherView_get cfg up request w = (Ok resp, w') ->
  status resp = 200 ->
  (exists entries,
      forecasts_of resp = Some entries
      /\ Forall (fun entry =>
                   entry = JObj (fields_of entry)
                   /\ map fst (fields_of entry) = forecast_entry_keys)
           entries)
  /\ List.filter (fun k => has_key k current_weather_keys) forecast_entry_keys
     = shared_keys
  /\ List.filter (fun k => negb (has_key k current_weather_keys))
       forecast_entry_keys
     = ["datetime"; "date_text"; "pop"]
  /\ has_key "wind_deg" forecast_entry_keys = false
  /\ has_key "visibility" forecast_entry_keys = false
  /\ (forall x payload entry,
        current_weather_data x = Ok payload ->
        forecast_entry x = Ok entry ->
        map fst (fields_of payload) = current_weather_keys
        /\ Forall (fun k => Py.assoc k (fields_of entry)
                            = Py.assoc k (fields_of payload)) shared_keys).
Proof.
  intros Hreach Hrun Hstatus.
  repeat split; try reflexivity.
  - destruct (success_is_payload cfg up Forecast request w w' resp
                (reachable_sound w Hreach) Hrun Hstatus) as (body & Hnorm & _).
    apply forecast_payload_entries in Hnorm
      as (items & entries & _ & Hassoc & Hall).
    exists entries. split; [now apply forecasts_of_payload|].
    clear Hassoc. induction Hall as [|item entry items entries Hentry _ IH];
      constructor; [|exact IH].
    now apply forecast_entry_fields in Hentry.
  - now apply current_weather_data_keys in H.
  - now apply shared_fields_agree with (x := x).
Qed.

Lemma forecast_fields_witness :
  exists entries,
    forecasts_of (mkResponse Sample.paris_payload 200) = Some entries
    /\ Forall (fun entry =>
                 entry = JObj (fields_of entry)
                 /\ map fst (fields_of entry) = forecast_entry_keys)
         entries.
Proof.
  apply (forecast_entries_have_fourteen_fields Sample.cfg
           (Sample.responds 200 (Ok (Sample.paris Sample.forty)))
           (Sample.ask "Paris") Sample.empty_world
           (snd (ForecastWeatherView_get Sample.cfg
                   (Sample.responds 200 (Ok (Sample.paris Sample.forty)))
                   (Sample.ask "Paris") Sample.empty_world))
           (mkResponse Sample.paris_payload 200)).
  - apply (Reach_start 0).
  - vm_compute. reflexivity.
  - reflexivity.
Defined.

(** C2, as the specification has it, fails.  The provider's interval below
    carries a wind direction of 250 and a visibility of 10000, and another
    one carries neither; in both cases the entry the forecast handler
    builds has no wind_deg and no visibility field at all, neither the
    upstream value nor the default 0, while the current-weather payload
    has both. *)
Lemma forecast_entry_lacks_wind_deg_and_visibility :
  let item := Sample.interval 1700000000 [("pop", JFloat 0.42)] in
  let bare :=
    JObj [("dt", JInt 1700000000); ("dt_txt", JStr "2023-11-14 21:00:00");
          ("main", JObj [("temp", JInt 16); ("feels_like", JInt 15);
                         ("temp_min", JInt 14); ("temp_max", JInt 17);
                         ("pressure", JInt 1012); ("humidity", JInt 76)]);
          ("weather", Sample.weather_entry);
          ("clouds", JObj [("all", JInt 75)]);
          ("wind", JObj [("speed", JFloat 3.5)])] in
  getitem2 item "wind" "deg" = Ok (JInt 250)
  /\ Py.getitem item "visibility" = Ok (JInt 10000)
  /\ forecast_entry item = Ok (Sample.interval_entry 1700000000 (JFloat 42))
  /\ Py.getitem (Sample.interval_entry 1700000000 (JFloat 42)) "wind_deg"
     = Raise KeyError
  /\ Py.getitem (Sample.interval_entry 1700000000 (JFloat 42)) "visibility"
     = Raise KeyError
  /\ forecast_entry bare = Ok (Sample.interval_entry 1700000000 (JInt 0))
  /\ Py.getitem (Sample.interval_entry 1700000000 (JInt 0)) "wind_deg"
     = Raise KeyError
  /\ Py.getitem (Sample.interval_entry 1700000000 (JInt 0)) "visibility"
     = Raise KeyError
  /\ Py.getitem Sample.london_payload "wind_deg" = Ok (JInt 250)
  /\ Py.getitem Sample.london_payload "visibility" = Ok (JInt 10000).
Proof. vm_compute. repeat split. Qed.

(** C8. The forecast entries of a successful forecast response stand one
    to one, and in the same order, against the intervals of the upstream
    list the payload was reshaped from: there are as many entries as
    intervals, the entry at each position is the reshaping of the interval
    at that position and carries its timestamp, and forty intervals give
    forty entries.  When the response was fetched in this run, that list
    is the one the provider sent in its 200 reply. *)
Theorem forecast_entries_follow_upstream_list
    (cfg : Settings) (up : upstream) (request : Request) (w w' : world)
    (resp : Response) :
  reachable w ->
  ForecastWeatherView_get cfg up request w = (Ok resp, w') ->
  status resp = 200 ->
  exists body items entries,
    forecast_weather_data body = Ok (data resp)
    /\ Py.getitem body "list" ≫= Py.iter = Ok items
    /\ forecasts_of resp = Some entries
    /\ List.length entries = List.length items
    /\ Forall2 (fun item entry => forecast_entry item = Ok entry) items entries
    /\ (forall (i : nat) item,
          items !! i = Some item ->
          exists entry,
            entries !! i = Some entry
            /\ forecast_entry item = Ok entry
            /\ Py.getitem entry "datetime" = Py.getitem item "dt")
    /\ (List.length items = 40%nat -> List.length entries = 40%nat)
    /\ (miss Forecast request w ->
        exists r, outcome (reply cfg up Forecast request) = Ok r
                  /\ status_code r = 200 /\ json_body r = Ok body).
Proof.
  intros Hreach Hrun Hstatus.
  destruct (success_is_payload cfg up Forecast request w w' resp
              (reachable_sound w Hreach) Hrun Hstatus) as (body & Hnorm & Hfetch).
  simpl in Hnorm.
  destruct (forecast_payload_entries body (data resp) Hnorm)
    as (items & entries & Hitems & Hassoc & Hall).
  pose proof (Forall2_length _ _ _ Hall) as Hlen.
  exists body, items, entries.
  split; [exact Hnorm|]. split; [exact Hitems|].
  split; [now apply forecasts_of_payload|].
  split; [now symmetry|]. split; [exact Hall|].
  split; [|split; [congruence | exact Hfetch]].
  intros i item Hi.
  destruct (Forall2_lookup_l _ _ _ i item Hall Hi) as (entry & Hentry & Hbuilt).
  exists entry. repeat split; try assumption.
  now apply forecast_entry_datetime.
Qed.

Lemma forty_intervals_witness :
  exists entries,
    forecasts_of (mkResponse Sample.paris_payload 200) = Some entries
    /\ List.length entries = 40%nat.
Proof.
  destruct (forecast_entries_follow_upstream_list Sample.cfg
              (Sample.responds 200 (Ok (Sample.paris Sample.forty)))
              (Sample.ask "Paris") Sample.empty_world
              (snd (ForecastWeatherView_get Sample.cfg
                      (Sample.responds 200 (Ok (Sample.paris Sample.forty)))
                      (Sample.ask "Paris") Sample.empty_world))
              (mkResponse Sample.paris_payload 200)
              (Reach_start 0))
    as (body & items & entries & _ & Hitems & Hentries & _ & _ & _ & Hforty
        & Hfetch).
  - vm_compute. reflexivity.
  - reflexivity.
  - destruct Hfetch as (r & Hout & _ & Hbody);
      [split; vm_compute; reflexivity|].
    injection Hout as <-. injection Hbody as <-.
    injection Hitems as <-.
    exists entries. split; [exact Hentries | now apply Hforty].
Defined.

(** ** Rounding *)

Section Rounding.




(** [round] fails on the infinities and on NaN only. *)
Lemma round_total_on_finite (f : float) :
  (exists n, PyFloat.round f = Ok n) <-> PyFloat.fraction f <> None.
Proof.
  unfold PyFloat.round, PyFloat.fraction.
  destruct (Prim2SF f) as [| | |s m e]; split;
    try (intros [n H]; discriminate); try congruence; eauto;
    try (intros _; discriminate).
  destruct (0 <=? e); eauto.
Qed.





End Rounding.

Example ex_round_half_even :
  PyFloat.round 2.5 = Ok 2 /\ PyFloat.round 3.5 = Ok 4 /\
  PyFloat.round (-2.5) = Ok (-2) /\ PyFloat.round 15.6 = Ok 16 /\
  PyFloat.round (-0.4) = Ok 0 /\ PyFloat.round infinity = Raise OverflowError.
Proof. repeat split; vm_compute; reflexivity. Qed.

Example ex_round1 :
  PyFloat.round1 3.47 = 3.5%float /\ PyFloat.round1 0.35 = 0.3%float /\
  PyFloat.round1 0.25 = 0.2%float /\ PyFloat.round1 (-7.96) = (-8)%float /\
  PyFloat.round1 1e300 = 1e300%float /\ PyFloat.round1 12.0 = 12%float.
Proof. repeat split; vm_compute; reflexivity. Qed.



(** * Further properties of the handlers *)

(** ** Replies other than 200, and what a run asks of the provider *)

Section MoreRunCases.

Variables (cfg : Settings) (up : upstream) (m : mode) (request : Request).

Ltac settle :=
  unfold miss, raised_in_try in *;
  repeat match goal with
    | H : _ /\ _ |- _ => destruct H
    | H : ?x = _ |- context [?x] => rewrite H
    | H : ?x = _, H' : context [?x] |- _ => rewrite H in H'
    | H : (?a =? ?b) = _ |- _ =>
        first [apply Z.eqb_eq in H | apply Z.eqb_neq in H]
    end;
  simpl in *; try congruence; try lia.

Lemma run_when_not_found (w : world) (r : HttpResponse) :
  miss m request w ->
  outcome (reply cfg up m request) = Ok r ->
  status_code r = 404 ->
  handler m cfg up request w
  = (Ok (not_found (city_of request)), after_call cfg up m request w).
Proof.
  intros Hmiss Hout Hcode.
  assert (Htest : (status_code r =? 200) = false) by (apply Z.eqb_neq; lia).
  destruct (run_shape_total cfg up m request w); settle.
Qed.

Lemma run_when_upstream_error (w : world) (r : HttpResponse) :
  miss m request w ->
  outcome (reply cfg up m request) = Ok r ->
  status_code r <> 200 ->
  status_code r <> 404 ->
  handler m cfg up request w
  = (Ok (mkResponse (failure (fetch_failed m)) HTTP_500_INTERNAL_SERVER_ERROR),
     after_call cfg up m request w).
Proof.
  intros Hmiss Hout Hcode Hcode'.
  assert (Htest : (status_code r =? 200) = false) by (now apply Z.eqb_neq).
  destruct (run_shape_total cfg up m request w); settle.
Qed.

Lemma misses_miss (w : world) : misses m request w = true <-> miss m request w.
Proof.
  unfold misses, miss. rewrite andb_true_iff, negb_true_iff. reflexivity.
Qed.

Lemma upstream_calls_of_run (w : world) :
  List.filter is_upstream_call (new_events (handler m cfg up request) w)
  = if misses m request w then
      [RequestsGet (request_url cfg m)
         (request_params cfg m (city_of request)) 10]
    else [].
Proof.
  unfold new_events.
  destruct (run_shape_total cfg up m request w) as
    [ Hblank | cached Hcity Hlive Htruthy | r body payload Hmiss
      | r Hmiss | r Hmiss | e Hmiss Hraised ]; simpl snd;
    try (apply misses_miss in Hmiss as Htest; rewrite Htest).
  - unfold misses. rewrite Hblank. now rewrite drop_all.
  - rewrite trace_after_lookup, appended.
    unfold misses. rewrite Hlive. simpl. now rewrite Htruthy, andb_false_r.
  - now rewrite trace_after_store, appended.
  - now rewrite trace_after_call, appended.
  - now rewrite trace_after_call, appended.
  - destruct (except_clauses_answer m e (after_call cfg up m request w))
      as (resp & k & -> & _).
    simpl snd. now rewrite trace_after_call, appended.
Qed.

Lemma error_run_effects (w w' : world) (resp : Response) :
  handler m cfg up request w = (Ok resp, w') ->
  status resp <> 200 ->
  cache (snd (handler m cfg up request w)) = cache w
  /\ List.filter is_write (new_events (handler m cfg up request) w) = [].
Proof.
  intros Hrun Hstatus.
  destruct (error_run_leaves_cache cfg up m request w w' resp Hrun Hstatus)
    as [Hwrites Hcache].
  rewrite Hrun. now split.
Qed.

End MoreRunCases.


(** X2. Whatever live, truthy value the cache holds under the key is
    returned as the body of a 200 response without being inspected, be it
    a weather payload or not; the lookup is the only effect of such a
    run. *)
Theorem cache_hit_returns_stored_value_as_is
    (cfg : Settings) (up : upstream) (m : mode) (request : Request)
    (w : world) (cached : json) :
  PyStr.truthy (city_of request) = true ->
  live_entry w (cacheKey m (city_of request)) = Some cached ->
  Py.truthy cached = true ->
  handler m cfg up request w
  = (Ok (mkResponse cached 200),
     log_event (CacheGet (cacheKey m (city_of request))) w)
  /\ new_events (handler m cfg up request) w
     = [CacheGet (cacheKey m (city_of request))].
Proof.
  intros Hcity Hlive Htruthy.
  pose proof (run_when_hit cfg up m request w cached Hcity Hlive Htruthy)
    as Hrun.
  split; [exact Hrun|].
  unfold new_events. rewrite Hrun. simpl snd.
  now rewrite trace_after_lookup, appended.
Qed.

Lemma cache_hit_witness :
  handler Current Sample.cfg (Sample.raises Timeout 10) (Sample.ask "London")
    Scenario.garbage_world
  = (Ok (mkResponse (JStr "left by someone else") 200),
     log_event (CacheGet "weather_current_london") Scenario.garbage_world).
Proof.
  apply (cache_hit_returns_stored_value_as_is Sample.cfg
           (Sample.raises Timeout 10) Current (Sample.ask "London")
           Scenario.garbage_world (JStr "left by someone else"));
    vm_compute; reflexivity.
Defined.

(** X3. An entry that has reached its expiry instant, or whose value is
    falsy, does not count: the provider is asked as if the cache were
    empty, and when its 200 reply can be reshaped the entry is replaced by
    the fresh payload, which is then live. *)
Theorem stale_or_falsy_entry_is_refetched
    (cfg : Settings) (up : upstream) (m : mode) (request : Request)
    (w : world) (old : json) (expires : Z) :
  PyStr.truthy (city_of request) = true ->
  cache w !! cacheKey m (city_of request) = Some (old, expires) ->
  expires <= clock w \/ Py.truthy old = false ->
  List.filter is_upstream_call (new_events (handler m cfg up request) w)
  = [RequestsGet (request_url cfg m)
       (request_params cfg m (city_of request)) 10]
  /\ (forall r body payload,
        outcome (reply cfg up m request) = Ok r ->
        status_code r = 200 ->
        json_body r = Ok body ->
        normalize m body = Ok payload ->
        fst (handler m cfg up request w) = Ok (mkResponse payload 200)
        /\ live_entry (snd (handler m cfg up request w))
             (cacheKey m (city_of request)) = Some payload).
Proof.
  intros Hcity Hentry Hstale.
  assert (Hmiss : miss m request w).
  { split; [exact Hcity|]. unfold live_entry. rewrite Hentry.
    destruct Hstale as [Hexp|Hfalsy].
    - apply Z.ltb_ge in Hexp. now rewrite Hexp.
    - destruct (clock w <? expires); [exact Hfalsy | reflexivity]. }
  split.
  - rewrite upstream_calls_of_run.
    apply misses_miss in Hmiss. now rewrite Hmiss.
  - intros r body payload Hout Hcode Hbody Hnorm.
    rewrite (run_when_stored cfg up m request w r body payload Hmiss Hout
               Hcode Hbody Hnorm).
    split; [reflexivity|]. simpl fst. simpl snd.
    apply (live_after_store cfg up m request payload w); [reflexivity | lia].
Qed.

Lemma stale_entry_witness :
  List.filter is_upstream_call
    (new_events (handler Current Sample.cfg
                   (Sample.responds 200 (Ok Sample.london))
                   (Sample.ask "London")) Scenario.stale_world)
  = [RequestsGet (request_url Sample.cfg Current)
       (request_params Sample.cfg Current (city_of (Sample.ask "London"))) 10].
Proof.
  apply (stale_or_falsy_entry_is_refetched Sample.cfg
           (Sample.responds 200 (Ok Sample.london)) Current
           (Sample.ask "London") Scenario.stale_world Sample.london_payload
           7200).
  - reflexivity.
  - vm_compute. reflexivity.
  - left. vm_compute. discriminate.
Defined.

(** X4. When the provider answers 404 the response is the 404 error whose
    message quotes the city as it was given, trimmed but in its own letter
    case; the body of the reply is never decoded, so the response is the
    same whatever it is, and the cache is left as it was. *)
Theorem upstream_404_quotes_the_city
    (cfg : Settings) (up : upstream) (m : mode) (request : Request)
    (w : world) (r : HttpResponse) :
  miss m request w ->
  outcome (reply cfg up m request) = Ok r ->
  status_code r = 404 ->
  handler m cfg up request w
  = (Ok (mkResponse
           (failure ("City " +:+ PyStr.dquote +:+ city_of request
                     +:+ PyStr.dquote +:+ " not found")) 404),
     after_call cfg up m request w)
  /\ cache (snd (handler m cfg up request w)) = cache w
  /\ List.filter is_write (new_events (handler m cfg up request) w) = [].
Proof.
  intros Hmiss Hout Hcode.
  pose proof (run_when_not_found cfg up m request w r Hmiss Hout Hcode)
    as Hrun.
  split; [exact Hrun|].
  apply (error_run_effects cfg up m request w _ _ Hrun). discriminate.
Qed.

Lemma upstream_404_witness :
  fst (handler Forecast Sample.cfg Scenario.not_found_reply
         (Sample.ask " Atlantis ") Sample.empty_world)
  = Ok (mkResponse
          (failure ("City " +:+ PyStr.dquote +:+ "Atlantis" +:+ PyStr.dquote
                    +:+ " not found")) 404).
Proof.
  pose proof (upstream_404_quotes_the_city Sample.cfg Scenario.not_found_reply
                Forecast (Sample.ask " Atlantis ") Sample.empty_world
                (mkHttpResponse 404 (Raise ValueError))) as H.
  destruct H as (Hrun & _).
  - split; vm_compute; reflexivity.
  - reflexivity.
  - reflexivity.
  - rewrite Hrun. reflexivity.
Defined.

(** X5. Any status of the provider other than 200 and 404 is answered with
    status 500 and the message of the mode, again without decoding the
    body and without touching the cache. *)
Theorem other_upstream_status_is_500
    (cfg : Settings) (up : upstream) (m : mode) (request : Request)
    (w : world) (r : HttpResponse) :
  miss m request w ->
  outcome (reply cfg up m request) = Ok r ->
  status_code r <> 200 ->
  status_code r <> 404 ->
  handler m cfg up request w
  = (Ok (mkResponse
           (failure (match m with
                     | Current => "Failed to fetch weather data"
                     | Forecast => "Failed to fetch forecast data"
                     end)) 500),
     after_call cfg up m request w)
  /\ cache (snd (handler m cfg up request w)) = cache w
  /\ List.filter is_write (new_events (handler m cfg up request) w) = [].
Proof.
  intros Hmiss Hout Hcode Hcode'.
  pose proof (run_when_upstream_error cfg up m request w r Hmiss Hout Hcode
                Hcode') as Hrun.
  split; [rewrite Hrun; now destruct m|].
  apply (error_run_effects cfg up m request w _ _ Hrun). discriminate.
Qed.

Lemma other_status_witness :
  fst (handler Current Sample.cfg (Sample.responds 401 (Raise ValueError))
         (Sample.ask "London") Sample.empty_world)
  = Ok (mkResponse (failure "Failed to fetch weather data") 500).
Proof.
  pose proof (other_upstream_status_is_500 Sample.cfg
                (Sample.responds 401 (Raise ValueError)) Current
                (Sample.ask "London") Sample.empty_world
                (mkHttpResponse 401 (Raise ValueError))) as H.
  destruct H as (Hrun & _).
  - split; vm_compute; reflexivity.
  - reflexivity.
  - discriminate.
  - discriminate.
  - rewrite Hrun. reflexivity.
Defined.

(** X6. A [requests] timeout raised anywhere inside the [try] statement is
    answered with status 408 and the same message by both handlers, and
    nothing is written to the cache. *)
Theorem timeout_is_408_in_both_handlers
    (cfg : Settings) (up : upstream) (m : mode) (request : Request)
    (w : world) :
  miss m request w ->
  raised_in_try cfg up m request = Some Timeout ->
  handler m cfg up request w
  = (Ok (mkResponse (failure "Request timeout. Please try again.") 408),
     after_call cfg up m request w)
  /\ cache (snd (handler m cfg up request w)) = cache w
  /\ List.filter is_write (new_events (handler m cfg up request) w) = [].
Proof.
  intros Hmiss Hraised.
  assert (Hrun : handler m cfg up request w
                 = (Ok request_timeout, after_call cfg up m request w)).
  { rewrite (run_when_raised cfg up m request w Timeout Hmiss Hraised).
    now destruct m. }
  split; [exact Hrun|].
  apply (error_run_effects cfg up m request w _ _ Hrun). discriminate.
Qed.

Lemma timeout_witness :
  fst (handler Current Sample.cfg (Sample.raises Timeout 10)
         (Sample.ask "London") Sample.empty_world)
  = Ok (mkResponse (failure "Request timeout. Please try again.") 408).
Proof.
  pose proof (timeout_is_408_in_both_handlers Sample.cfg
                (Sample.raises Timeout 10) Current (Sample.ask "London")
                Sample.empty_world) as H.
  destruct H as (Hrun & _).
  - split; vm_compute; reflexivity.
  - reflexivity.
  - rewrite Hrun. reflexivity.
Defined.

(** X7. When the provider answers 200 but decoding the body raises a
    [requests] exception other than a timeout, the current-weather handler
    reports a network error, status 503, and the forecast handler an
    internal error, status 500; neither writes to the cache. *)
Theorem undecodable_200_body
    (cfg : Settings) (up : upstream) (m : mode) (request : Request)
    (w : world) (r : HttpResponse) (e : exn) :
  miss m request w ->
  outcome (reply cfg up m request) = Ok r ->
  status_code r = 200 ->
  json_body r = Raise e ->
  is_RequestException e = true ->
  is_Timeout e = false ->
  handler m cfg up request w
  = (Ok (match m with
         | Current => network_error
         | Forecast => internal_error
         end), after_call cfg up m request w)
  /\ status network_error = 503 /\ status internal_error = 500
  /\ List.filter is_write (new_events (handler m cfg up request) w) = [].
Proof.
  intros Hmiss Hout Hcode Hbody Hreq Htimeout.
  assert (Hraised : raised_in_try cfg up m request = Some e).
  { unfold raised_in_try. rewrite Hout, Hcode, Hbody. reflexivity. }
  assert (Hrun : handler m cfg up request w
                 = (Ok (match m with
                        | Current => network_error
                        | Forecast => internal_error
                        end), after_call cfg up m request w)).
  { rewrite (run_when_raised cfg up m request w e Hmiss Hraised).
    destruct m; simpl;
      [rewrite current_except_run | rewrite forecast_except_run];
      now rewrite ?Htimeout, ?Hreq. }
  split; [exact Hrun|]. split; [reflexivity|]. split; [reflexivity|].
  apply (error_run_effects cfg up m request w _ _ Hrun).
  destruct m; discriminate.
Qed.

Lemma undecodable_body_witness :
  fst (handler Current Sample.cfg Scenario.undecodable_reply
         (Sample.ask "London") Sample.empty_world)
  = Ok network_error.
Proof.
  pose proof (undecodable_200_body Sample.cfg Scenario.undecodable_reply
                Current (Sample.ask "London") Sample.empty_world
                (mkHttpResponse 200 (Raise RequestException))
                RequestException) as H.
  destruct H as (Hrun & _).
  - split; vm_compute; reflexivity.
  - reflexivity.
  - reflexivity.
  - reflexivity.
  - reflexivity.
  - reflexivity.
  - rewrite Hrun. reflexivity.
Defined.

(** ** Failures of the reshaping *)

Section ReshapingErrors.

Lemma bind_Raise {A B} (f : A -> result B) (r : result A) (e : exn) :
  r ≫= f = Raise e -> r = Raise e \/ exists a, r = Ok a /\ f a = Raise e.
Proof. destruct r as [a|e']; [eauto | intros [= <-]; now left]. Qed.

(** The exceptions of the builtins are none of the [requests] ones. *)
Ltac by_cases H :=
  simpl in H;
  repeat match type of H with
    | context [match ?x with _ => _ end] => destruct x; simpl in H
    end;
  first [discriminate H | injection H as <-; reflexivity].

Lemma getitem_builtin (v : json) (k : string) (e : exn) :
  Py.getitem v k = Raise e -> is_RequestException e = false.
Proof. intros H. destruct v; by_cases H. Qed.

Lemma getitem0_builtin (v : json) (e : exn) :
  Py.getitem0 v = Raise e -> is_RequestException e = false.
Proof. intros H. destruct v; by_cases H. Qed.

Lemma get_builtin (v : json) (k : string) (d : json) (e : exn) :
  Py.get v k d = Raise e -> is_RequestException e = false.
Proof. intros H. destruct v; by_cases H. Qed.

Lemma round_builtin (v : json) (e : exn) :
  Py.round v = Raise e -> is_RequestException e = false.
Proof.
  intros H. destruct v; try by_cases H.
  simpl in H. unfold PyFloat.round in H.
  destruct (Prim2SF f); destruct (PyFloat.fraction f) as [[? ?]|]; by_cases H.
Qed.

Lemma round1_builtin (v : json) (e : exn) :
  Py.round1 v = Raise e -> is_RequestException e = false.
Proof. intros H. destruct v; by_cases H. Qed.

Lemma title_builtin (v : json) (e : exn) :
  Py.title v = Raise e -> is_RequestException e = false.
Proof. intros H. destruct v; by_cases H. Qed.

Lemma mul100_builtin (v : json) (e : exn) :
  Py.mul100 v = Raise e -> is_RequestException e = false.
Proof. intros H. destruct v; by_cases H. Qed.

Lemma iter_builtin (v : json) (e : exn) :
  Py.iter v = Raise e -> is_RequestException e = false.
Proof. intros H. destruct v; by_cases H. Qed.

Lemma getitem2_builtin (d : json) (a b : string) (e : exn) :
  getitem2 d a b = Raise e -> is_RequestException e = false.
Proof.
  unfold getitem2. intros [H|(x & _ & H)]%bind_Raise;
    eauto using getitem_builtin.
Qed.

Lemma getitem_first_builtin (d : json) (a b : string) (e : exn) :
  getitem_first d a b = Raise e -> is_RequestException e = false.
Proof.
  unfold getitem_first. intros [H|(x & _ & H)]%bind_Raise;
    [eauto using getitem_builtin|].
  apply bind_Raise in H as [H|(y & _ & H)];
    eauto using getitem_builtin, getitem0_builtin.
Qed.

Lemma then_builtin {A B} (r : result A) (f : A -> result B) (e : exn) :
  (forall e', r = Raise e' -> is_RequestException e' = false) ->
  (forall a e', f a = Raise e' -> is_RequestException e' = false) ->
  r ≫= f = Raise e -> is_RequestException e = false.
Proof. intros Hr Hf [H|(a & _ & H)]%bind_Raise; eauto. Qed.

Create HintDb builtin.

#[local] Hint Resolve getitem_builtin getitem0_builtin get_builtin round_builtin
  round1_builtin title_builtin mul100_builtin iter_builtin getitem2_builtin
  getitem_first_builtin : builtin.

(** One step of a reshaping: the value bound first is to blame, or the
    rest is. *)
Ltac blame H :=
  repeat (apply bind_Raise in H as [H|(? & _ & H)];
          [ first [ solve [eauto with builtin]
                  | solve [eapply then_builtin; [| |exact H];
                           intros; cbv beta in *; eauto with builtin] ]
          | ]);
  discriminate H.

Lemma current_weather_data_builtin (body : json) (e : exn) :
  current_weather_data body = Raise e -> is_RequestException e = false.
Proof. unfold current_weather_data. intros H. blame H. Qed.

Lemma forecast_entry_builtin (item : json) (e : exn) :
  forecast_entry item = Raise e -> is_RequestException e = false.
Proof. unfold forecast_entry. intros H. blame H. Qed.

Lemma forecast_loop_builtin (items acc : list json) (e : exn) :
  forecast_loop items acc = Raise e -> is_RequestException e = false.
Proof.
  revert acc. induction items as [|item items IH]; simpl; intros acc H;
    [discriminate|].
  apply bind_Raise in H as [H|(entry & _ & H)];
    eauto using forecast_entry_builtin.
Qed.

Lemma forecast_weather_data_builtin (body : json) (e : exn) :
  forecast_weather_data body = Raise e -> is_RequestException e = false.
Proof.
  unfold forecast_weather_data. intros H.
  apply bind_Raise in H as [H|(items & _ & H)];
    [eapply then_builtin; [| |exact H]; intros; cbv beta in *;
     eauto with builtin|].
  apply bind_Raise in H as [H|(entries & _ & H)];
    [eauto using forecast_loop_builtin|].
  blame H.
Qed.

Lemma normalize_builtin (m : mode) (body : json) (e : exn) :
  normalize m body = Raise e -> is_RequestException e = false.
Proof.
  destruct m; [apply current_weather_data_builtin
              | apply forecast_weather_data_builtin].
Qed.

(** The loop stops at the first interval that cannot be reshaped. *)
Lemma forecast_loop_fails (items acc : list json) :
  Exists (fun item => exists e, forecast_entry item = Raise e) items ->
  exists e, forecast_loop items acc = Raise e.
Proof.
  intros H. revert acc.
  induction items as [|item items IH]; intros acc; [inversion H|].
  simpl. destruct (forecast_entry item) as [entry|e] eqn:Hentry; simpl.
  - apply IH. inversion H as [? ? [e He]|]; [congruence | assumption].
  - eauto.
Qed.

End ReshapingErrors.

Section RequiredFields.

Ltac walk :=
  repeat match goal with
    | |- exists e, Raise _ = Raise e => eexists; reflexivity
    | |- exists e, ?r ≫= _ = Raise e =>
        destruct r eqn:?; simpl; [| eexists; reflexivity]
    end.

Lemma current_needs_key (fields : list (string * json)) (k : string) :
  In k current_required_keys ->
  Py.assoc k fields = None ->
  exists e, current_weather_data (JObj fields) = Raise e.
Proof.
  unfold current_required_keys. simpl In. intros Hk Hnone.
  unfold current_weather_data, getitem2, getitem_first.
  simpl Py.getitem.
  repeat (destruct Hk as [<-|Hk]; [rewrite !Hnone; simpl; walk|]).
  contradiction.
Qed.

Lemma interval_needs_key (fields : list (string * json)) (k : string) :
  In k interval_required_keys ->
  Py.assoc k fields = None ->
  exists e, forecast_entry (JObj fields) = Raise e.
Proof.
  unfold interval_required_keys. simpl In. intros Hk Hnone.
  unfold forecast_entry, getitem2, getitem_first.
  simpl Py.getitem.
  repeat (destruct Hk as [<-|Hk]; [rewrite !Hnone; simpl; walk|]).
  contradiction.
Qed.

End RequiredFields.

Section ReshapingRuns.

Variables (cfg : Settings) (up : upstream) (m : mode) (request : Request).

Lemma reshaping_failure_is_internal_error_aux (w : world) (r : HttpResponse)
    (body : json) (e : exn) :
  miss m request w ->
  outcome (reply cfg up m request) = Ok r ->
  status_code r = 200 ->
  json_body r = Ok body ->
  normalize m body = Raise e ->
  handler m cfg up request w
  = (Ok internal_error, after_call cfg up m request w)
  /\ List.filter is_write (new_events (handler m cfg up request) w) = [].
Proof.
  intros Hmiss Hout Hcode Hbody Hnorm.
  pose proof (normalize_builtin m body e Hnorm) as He.
  assert (Hraised : raised_in_try cfg up m request = Some e).
  { unfold raised_in_try. rewrite Hout, Hcode, Hbody, Hnorm. reflexivity. }
  assert (Hrun : handler m cfg up request w
                 = (Ok internal_error, after_call cfg up m request w)).
  { rewrite (run_when_raised cfg up m request w e Hmiss Hraised).
    now apply except_clauses_unexpected. }
  split; [exact Hrun|].
  apply (error_run_effects cfg up m request w _ _ Hrun). discriminate.
Qed.

End ReshapingRuns.

(** X8. When the provider answers 200 and the body decodes but cannot be
    reshaped, whatever the reason (a missing field, a value of the wrong
    type, an empty weather list, a temperature that is infinite or not a
    number), the failure is never mistaken for a timeout or a network
    error: both handlers answer with the internal error, status 500, and
    write nothing to the cache. *)
Theorem reshaping_failure_is_internal_error
    (cfg : Settings) (up : upstream) (m : mode) (request : Request)
    (w : world) (r : HttpResponse) (body : json) (e : exn) :
  miss m request w ->
  outcome (reply cfg up m request) = Ok r ->
  status_code r = 200 ->
  json_body r = Ok body ->
  normalize m body = Raise e ->
  is_RequestException e = false
  /\ handler m cfg up request w
     = (Ok (mkResponse (failure "An unexpected error occurred") 500),
        after_call cfg up m request w)
  /\ cache (snd (handler m cfg up request w)) = cache w
  /\ List.filter is_write (new_events (handler m cfg up request) w) = [].
Proof.
  intros Hmiss Hout Hcode Hbody Hnorm.
  pose proof (normalize_builtin m body e Hnorm) as He.
  assert (Hraised : raised_in_try cfg up m request = Some e).
  { unfold raised_in_try. rewrite Hout, Hcode, Hbody, Hnorm. reflexivity. }
  assert (Hrun : handler m cfg up request w
                 = (Ok internal_error, after_call cfg up m request w)).
  { rewrite (run_when_raised cfg up m request w e Hmiss Hraised).
    now apply except_clauses_unexpected. }
  split; [exact He|]. split; [exact Hrun|].
  apply (error_run_effects cfg up m request w _ _ Hrun). discriminate.
Qed.

Lemma reshaping_failure_witness :
  fst (handler Current Sample.cfg
         (Sample.responds 200
            (Ok (JObj [("name", JStr "London"); ("sys", JStr "GB")])))
         (Sample.ask "London") Sample.empty_world)
  = Ok (mkResponse (failure "An unexpected error occurred") 500).
Proof.
  pose proof (reshaping_failure_is_internal_error Sample.cfg
                (Sample.responds 200
                   (Ok (JObj [("name", JStr "London"); ("sys", JStr "GB")])))
                Current (Sample.ask "London") Sample.empty_world
                (mkHttpResponse 200
                   (Ok (JObj [("name", JStr "London"); ("sys", JStr "GB")])))
                (JObj [("name", JStr "London"); ("sys", JStr "GB")])
                TypeError) as H.
  destruct H as (_ & Hrun & _).
  - split; vm_compute; reflexivity.
  - reflexivity.
  - reflexivity.
  - reflexivity.
  - reflexivity.
  - rewrite Hrun. reflexivity.
Defined.

(** X9. A 200 body that is a dictionary without one of the fields name,
    sys, coord, main, weather, wind, clouds, timezone or dt makes the
    current-weather handler answer 500 and cache nothing, whatever else
    the body holds. *)
Theorem current_body_without_required_field_is_500
    (cfg : Settings) (up : upstream) (request : Request) (w : world)
    (r : HttpResponse) (fields : list (string * json)) (k : string) :
  miss Current request w ->
  outcome (reply cfg up Current request) = Ok r ->
  status_code r = 200 ->
  json_body r = Ok (JObj fields) ->
  In k current_required_keys ->
  Py.assoc k fields = None ->
  CurrentWeatherView_get cfg up request w
  = (Ok (mkResponse (failure "An unexpected error occurred") 500),
     after_call cfg up Current request w)
  /\ List.filter is_write
       (new_events (CurrentWeatherView_get cfg up request) w) = [].
Proof.
  intros Hmiss Hout Hcode Hbody Hk Hnone.
  destruct (current_needs_key fields k Hk Hnone) as (e & Hfail).
  pose proof (current_weather_data_builtin _ e Hfail) as He.
  assert (Hraised : raised_in_try cfg up Current request = Some e).
  { unfold raised_in_try. rewrite Hout, Hcode, Hbody. simpl.
    now rewrite Hfail. }
  change (CurrentWeatherView_get cfg up request)
    with (handler Current cfg up request).
  assert (Hrun : handler Current cfg up request w
                 = (Ok internal_error, after_call cfg up Current request w)).
  { rewrite (run_when_raised cfg up Current request w e Hmiss Hraised).
    now apply except_clauses_unexpected. }
  split; [exact Hrun|].
  apply (error_run_effects cfg up Current request w _ _ Hrun). discriminate.
Qed.

Lemma windless_body_witness :
  CurrentWeatherView_get Sample.cfg
    (Sample.responds 200 (Ok Scenario.windless)) (Sample.ask "London")
    Sample.empty_world
  = (Ok (mkResponse (failure "An unexpected error occurred") 500),
     after_call Sample.cfg (Sample.responds 200 (Ok Scenario.windless))
       Current (Sample.ask "London") Sample.empty_world).
Proof.
  apply (current_body_without_required_field_is_500 Sample.cfg
           (Sample.responds 200 (Ok Scenario.windless)) (Sample.ask "London")
           Sample.empty_world (mkHttpResponse 200 (Ok Scenario.windless))
           (fields_of Scenario.windless) "wind").
  - split; vm_compute; reflexivity.
  - reflexivity.
  - reflexivity.
  - reflexivity.
  - vm_compute. tauto.
  - vm_compute. reflexivity.
Defined.

(** X10. The forecast is all or nothing: when a single interval of the
    upstream list cannot be reshaped, for instance because it lacks dt,
    dt_txt, main, weather, wind or clouds, no partial list is returned;
    the handler answers 500 and caches nothing. *)
Theorem one_bad_interval_fails_the_forecast
    (cfg : Settings) (up : upstream) (request : Request) (w : world)
    (r : HttpResponse) (body : json) (items : list json) :
  miss Forecast request w ->
  outcome (reply cfg up Forecast request) = Ok r ->
  status_code r = 200 ->
  json_body r = Ok body ->
  Py.getitem body "list" ≫= Py.iter = Ok items ->
  Exists (fun item => exists e, forecast_entry item = Raise e) items ->
  (ForecastWeatherView_get cfg up request w
   = (Ok (mkResponse (failure "An unexpected error occurred") 500),
      after_call cfg up Forecast request w)
   /\ List.filter is_write
        (new_events (ForecastWeatherView_get cfg up request) w) = [])
  /\ (forall fields k,
        In k interval_required_keys ->
        Py.assoc k fields = None ->
        exists e, forecast_entry (JObj fields) = Raise e).
Proof.
  intros Hmiss Hout Hcode Hbody Hitems Hbad.
  split; [|exact interval_needs_key].
  destruct (forecast_loop_fails items [] Hbad) as (e & Hloop).
  assert (Hfail : forecast_weather_data body = Raise e).
  { unfold forecast_weather_data. rewrite Hitems. simpl.
    now rewrite Hloop. }
  change (ForecastWeatherView_get cfg up request)
    with (handler Forecast cfg up request).
  destruct (reshaping_failure_is_internal_error_aux cfg up Forecast request w
              r body e Hmiss Hout Hcode Hbody Hfail) as (Hrun & Hwrites).
  now split.
Qed.

Lemma bad_interval_witness :
  fst (ForecastWeatherView_get Sample.cfg
         (Sample.responds 200 (Ok broken_forecast)) (Sample.ask "Paris")
         Sample.empty_world)
  = Ok (mkResponse (failure "An unexpected error occurred") 500).
Proof.
  pose proof (one_bad_interval_fails_the_forecast Sample.cfg
                (Sample.responds 200 (Ok broken_forecast))
                (Sample.ask "Paris") Sample.empty_world
                (mkHttpResponse 200 (Ok broken_forecast)) broken_forecast
                [Sample.interval 1700000000 [];
                 JObj [("dt", JInt 1700010800);
                       ("dt_txt", JStr "2023-11-15 00:00:00")]]) as H.
  destruct H as ((Hrun & _) & _).
  - split; vm_compute; reflexivity.
  - reflexivity.
  - reflexivity.
  - reflexivity.
  - reflexivity.
  - apply Exists_cons_tl, Exists_cons_hd. exists KeyError.
    vm_compute. reflexivity.
  - rewrite Hrun. reflexivity.
Defined.

(** ** Fields of the current-weather payload *)

Section CurrentFields.









End CurrentFields.

(** X11. In a current-weather payload [visibility] is the upstream
    [visibility] when the body has that key, whatever its value, and 0
    when it has not; likewise [wind_deg] is the upstream [wind.deg] or 0.
    The [wind] dictionary itself is needed: the payload exists only when
    the body has one. *)
Theorem optional_fields_default_to_zero
    (fields : list (string * json)) (payload : json) :
  current_weather_data (JObj fields) = Ok payload ->
  Py.getitem payload "visibility"
  = Ok (default (JInt 0) (Py.assoc "visibility" fields))
  /\ exists wind,
       Py.assoc "wind" fields = Some (JObj wind)
       /\ Py.getitem payload "wind_deg"
          = Ok (default (JInt 0) (Py.assoc "deg" wind)).
Proof.
  unfold current_weather_data. intros H.
  repeat (apply bind_Ok in H as (? & ? & H)). injection H as <-.
  match goal with
  | Hv : Py.get (JObj fields) "visibility" _ = Ok _ |- _ =>
      simpl in Hv; injection Hv as <-
  end.
  split; [reflexivity|].
  match goal with
  | Hw : (Py.getitem _ "wind" ≫= _) = Ok _ |- _ =>
      apply bind_Ok in Hw as (wv & Hwind & Hdeg)
  end.
  simpl in Hwind.
  destruct (Py.assoc "wind" fields) as [wind'|]; [|discriminate].
  injection Hwind as ->.
  destruct wv as [| | | | | |wind]; try discriminate.
  simpl in Hdeg. injection Hdeg as <-.
  exists wind. now split.
Qed.

Lemma sparse_body_witness :
  Py.getitem Scenario.sparse_payload "visibility" = Ok (JInt 0)
  /\ Py.getitem Scenario.sparse_payload "wind_deg" = Ok (JInt 0).
Proof.
  destruct (optional_fields_default_to_zero (fields_of Scenario.sparse)
              Scenario.sparse_payload) as (Hvis & wind & Hwind & Hdeg).
  - vm_compute. reflexivity.
  - rewrite Hvis, Hdeg. injection Hwind as <-. now split.
Defined.

(** X12. The fields city, country, humidity, pressure, main, icon, clouds,
    sunrise, sunset, timezone and timestamp of a current-weather payload,
    and the two coordinates, are the upstream values as they came: they
    are neither converted nor checked, so a string, a number or a null is
    forwarded alike. *)
Theorem copied_fields_are_forwarded_unchanged (body payload : json) :
  current_weather_data body = Ok payload ->
  Forall (fun '(field, source) => source = Py.getitem payload field)
    (copied_fields body)
  /\ (lat ← getitem2 body "coord" "lat";
      lon ← getitem2 body "coord" "lon";
      Ok (JObj [("lat", lat); ("lon", lon)]))
     = Py.getitem payload "coordinates"
  /\ Py.getitem payload "success" = Ok (JBool true).
Proof.
  unfold current_weather_data. intros H.
  repeat (apply bind_Ok in H as (? & ? & H)). injection H as <-.
  split; [|split]; [repeat constructor; simpl; congruence | | reflexivity].
  simpl.
  repeat match goal with
    | Hx : ?t = Ok _ |- context [?t] => rewrite Hx; simpl
    end.
  reflexivity.
Qed.

Lemma copied_fields_witness :
  Forall (fun '(field, source) =>
            source = Py.getitem Sample.london_payload field)
    (copied_fields Sample.london).
Proof.
  apply (copied_fields_are_forwarded_unchanged Sample.london
           Sample.london_payload).
  vm_compute. reflexivity.
Defined.



(** ** Other cache entries, and the request beyond its city *)

Section Isolation.

Variables (cfg : Settings) (up : upstream) (m : mode) (request : Request).

Lemma other_keys_after_run (w : world) (k : string) :
  k <> cacheKey m (city_of request) ->
  cache (snd (handler m cfg up request w)) !! k = cache w !! k.
Proof.
  intros Hk.
  destruct (run_shape_total cfg up m request w) as
    [ | | r body payload ? ? ? ? ? | | | e ? ? ]; simpl snd;
    try reflexivity.
  - unfold after_store. simpl. now rewrite lookup_insert_ne by congruence.
  - destruct (except_clauses_answer m e (after_call cfg up m request w))
      as (resp & kind & -> & _).
    reflexivity.
Qed.

End Isolation.

Section Trimming.







End Trimming.

(** X14. A run changes no cache entry but the one under the key of its own
    mode and city: entries of other cities are left alone, and a
    current-weather run never touches a forecast entry, nor a forecast run
    a current-weather entry, not even for the same city. *)
Theorem run_touches_only_its_own_entry
    (cfg : Settings) (up : upstream) (m : mode) (request : Request)
    (w : world) (k : string) :
  k <> cacheKey m (city_of request) ->
  cache (snd (handler m cfg up request w)) !! k = cache w !! k
  /\ (forall city,
        cache (snd (CurrentWeatherView_get cfg up request w))
          !! cacheKey Forecast city
        = cache w !! cacheKey Forecast city)
  /\ (forall city,
        cache (snd (ForecastWeatherView_get cfg up request w))
          !! cacheKey Current city
        = cache w !! cacheKey Current city).
Proof.
  intros Hk. split; [now apply other_keys_after_run|]. split; intros city.
  - apply (other_keys_after_run cfg up Current request w).
    intros H. symmetry in H. now apply cacheKey_namespaced in H.
  - apply (other_keys_after_run cfg up Forecast request w).
    apply cacheKey_namespaced.
Qed.

Lemma own_entry_witness :
  cache (snd (handler Forecast Sample.cfg
                (Sample.responds 200 (Ok (Sample.paris Sample.forty)))
                (Sample.ask "London") Scenario.stale_world))
    !! "weather_current_london"
  = Some (Sample.london_payload, 7200).
Proof.
  assert (H : "weather_current_london"
              <> cacheKey Forecast (city_of (Sample.ask "London")))
    by (vm_compute; discriminate).
  rewrite (proj1 (run_touches_only_its_own_entry Sample.cfg
                    (Sample.responds 200 (Ok (Sample.paris Sample.forty)))
                    Forecast (Sample.ask "London") Scenario.stale_world
                    "weather_current_london" H)).
  vm_compute. reflexivity.
Defined.



(** ** The URL configuration *)

Section Routing.





End Routing.




(** ** The forecast payload as a whole *)

(** X18. The forecast reshaping succeeds exactly when the upstream list
    can be iterated, every interval of it can be reshaped, and the city
    dictionary has a name, a country and the two coordinates; the payload
    is then the success flag, these four values and the entries in the
    order of the list.  An empty list is no failure: it gives a payload
    with no entries. *)
Theorem forecast_payload_characterised (body payload : json) :
  (forecast_weather_data body = Ok payload
   <-> exists items entries name country lat lon,
         Py.getitem body "list" ≫= Py.iter = Ok items
         /\ Forall2 (fun item entry => forecast_entry item = Ok entry)
              items entries
         /\ getitem2 body "city" "name" = Ok name
         /\ getitem2 body "city" "country" = Ok country
         /\ (c ← getitem2 body "city" "coord"; Py.getitem c "lat") = Ok lat
         /\ (c ← getitem2 body "city" "coord"; Py.getitem c "lon") = Ok lon
         /\ payload = forecast_payload name country lat lon entries)
  /\ (forecast_weather_data body = Ok payload ->
      Py.getitem body "list" = Ok (JArr []) ->
      Py.getitem payload "forecasts" = Ok (JArr [])).
Proof.
  split.
  - split.
    + unfold forecast_weather_data. intros H.
      apply bind_Ok in H as (items & Hitems & H).
      apply bind_Ok in H as (entries & Hloop & H).
      apply bind_Ok in H as (name & Hname & H).
      apply bind_Ok in H as (country & Hcountry & H).
      apply bind_Ok in H as (lat & Hlat & H).
      apply bind_Ok in H as (lon & Hlon & H).
      injection H as <-.
      apply forecast_loop_entries in Hloop as (new & -> & Hnew).
      exists items, new, name, country, lat, lon. now repeat split.
    + intros (items & entries & name & country & lat & lon & Hitems & Hall
              & Hname & Hcountry & Hlat & Hlon & ->).
      unfold forecast_weather_data. rewrite Hitems. simpl.
      rewrite (forecast_loop_succeeds items [] entries Hall). simpl.
      rewrite Hname. simpl. rewrite Hcountry. simpl.
      rewrite Hlat. simpl. rewrite Hlon. reflexivity.
  - unfold forecast_weather_data. intros H Hlist.
    rewrite Hlist in H. simpl in H.
    repeat (apply bind_Ok in H as (? & ? & H)). now injection H as <-.
Qed.

(** ** The first weather entry *)

Section FirstWeatherEntry.

Lemma getitem_first_head (fields : list (string * json)) (first : json)
    (others : list json) (k : string) :
  Py.assoc "weather" fields = Some (JArr (first :: others)) ->
  getitem_first (JObj fields) "weather" k = Py.getitem first k.
Proof. unfold getitem_first. simpl. now intros ->. Qed.

Lemma getitem_first_empty (fields : list (string * json)) (k : string) :
  Py.assoc "weather" fields = Some (JArr []) ->
  getitem_first (JObj fields) "weather" k = Raise IndexError.
Proof. unfold getitem_first. simpl. now intros ->. Qed.

End FirstWeatherEntry.

(** X19. Of the upstream list of weather conditions only the first entry
    is used: description, main and icon of the current-weather payload
    come from it, further entries make no difference to the payload, and
    an empty list makes the reshaping fail. *)
Theorem only_first_weather_entry_is_used
    (fields : list (string * json)) (first : json) (others : list json) :
  Py.assoc "weather" fields = Some (JArr (first :: others)) ->
  current_weather_data (JObj fields)
  = current_weather_data (JObj (("weather", JArr [first]) :: fields))
  /\ (forall payload,
        current_weather_data (JObj fields) = Ok payload ->
        Py.getitem payload "description"
        = Py.getitem first "description" ≫= Py.title
        /\ Py.getitem payload "main" = Py.getitem first "main"
        /\ Py.getitem payload "icon" = Py.getitem first "icon")
  /\ (forall fields',
        Py.assoc "weather" fields' = Some (JArr []) ->
        exists e, current_weather_data (JObj fields') = Raise e).
Proof.
  intros Hweather. split; [|split].
  - unfold current_weather_data.
    rewrite !(getitem_first_head fields first others _ Hweather).
    rewrite !(getitem_first_head (("weather", JArr [first]) :: fields)
                first [] _ eq_refl).
    reflexivity.
  - intros payload H. unfold current_weather_data in H.
    rewrite !(getitem_first_head fields first others _ Hweather) in H.
    repeat (apply bind_Ok in H as (? & ? & H)). injection H as <-.
    simpl. repeat split; congruence.
  - intros fields' Hempty. unfold current_weather_data.
    rewrite !(getitem_first_empty fields' _ Hempty).
    repeat match goal with
      | |- exists e, Raise _ = Raise e => eexists; reflexivity
      | |- exists e, ?r ≫= _ = Raise e =>
          destruct r eqn:?; simpl; [| eexists; reflexivity]
      end.
Qed.

Lemma first_weather_entry_witness :
  current_weather_data Sample.london
  = current_weather_data
      (JObj (("weather", JArr [JObj [("id", JInt 803); ("main", JStr "Clouds");
                                     ("description", JStr "broken clouds");
                                     ("icon", JStr "04d")]])
             :: fields_of Sample.london)).
Proof.
  apply (only_first_weather_entry_is_used (fields_of Sample.london)
           (JObj [("id", JInt 803); ("main", JStr "Clouds");
                  ("description", JStr "broken clouds"); ("icon", JStr "04d")])
           []).
  reflexivity.
Defined.

(** ** Invariants of reachable worlds *)

Section ReachableWorlds.

Lemma store_keeps_expiry (cfg : Settings) (up : upstream) (m : mode)
    (request : Request) (w : world) (payload : json) :
  expiry_bounded w ->
  expiry_bounded (after_store cfg up m request payload w).
Proof.
  intros Hb key value expires. unfold after_store. simpl.
  destruct (decide (cacheKey m (city_of request) = key)) as [<-|Hne].
  - rewrite lookup_insert_eq. intros [= <- <-]. lia.
  - rewrite lookup_insert_ne by assumption. intros H.
    apply Hb in H. lia.
Qed.

Lemma call_keeps_expiry (cfg : Settings) (up : upstream) (m : mode)
    (request : Request) (w : world) :
  expiry_bounded w -> expiry_bounded (after_call cfg up m request w).
Proof.
  intros Hb key value expires. simpl. intros H. apply Hb in H. lia.
Qed.

Lemma handler_keeps_expiry (cfg : Settings) (up : upstream) (m : mode)
    (request : Request) (w : world) :
  expiry_bounded w -> expiry_bounded (snd (handler m cfg up request w)).
Proof.
  intros Hb.
  destruct (run_shape_total cfg up m request w) as
    [ | | r body payload ? ? ? ? ? | | | e ? ? ]; simpl snd;
    try exact Hb; try (now apply call_keeps_expiry).
  - now apply store_keeps_expiry.
  - destruct (except_clauses_answer m e (after_call cfg up m request w))
      as (resp & k & -> & _).
    now apply call_keeps_expiry.
Qed.

Lemma reachable_expiry_bounded (w : world) : reachable w -> expiry_bounded w.
Proof.
  induction 1 as [now | w m cfg up request _ IH | w seconds _ IH].
  - intros key value expires. simpl. now rewrite lookup_empty.
  - now apply handler_keeps_expiry.
  - intros key value expires. simpl. intros H. apply IH in H. lia.
Qed.

(** The dictionary of a 200 response says success, that of any other
    response says failure. *)
Lemma success_flag_of_run (cfg : Settings) (up : upstream) (m : mode)
    (request : Request) (w : world) :
  cache_sound w ->
  match fst (handler m cfg up request w) with
  | Ok resp =>
      Py.getitem (data resp) "success" = Ok (JBool (status resp =? 200))
  | Raise _ => False
  end.
Proof.
  intros Hsound.
  destruct (handler m cfg up request w) as [[resp|e] w'] eqn:Hrun.
  - simpl. destruct (status resp =? 200) eqn:Hs.
    + apply Z.eqb_eq in Hs.
      destruct (success_is_payload cfg up m request w w' resp Hsound Hrun Hs)
        as (body & Hnorm & _).
      destruct m; simpl in Hnorm.
      * unfold current_weather_data in Hnorm.
        repeat (apply bind_Ok in Hnorm as (? & ? & Hnorm)).
        now injection Hnorm as <-.
      * unfold forecast_weather_data in Hnorm.
        repeat (apply bind_Ok in Hnorm as (? & ? & Hnorm)).
        now injection Hnorm as <-.
    + apply Z.eqb_neq in Hs. revert Hrun.
      destruct (run_shape_total cfg up m request w) as
        [ | | | | | e ? ? ].
      * now intros [= <- <-].
      * intros [= <- <-]. now contradiction Hs.
      * intros [= <- <-]. now contradiction Hs.
      * now intros [= <- <-].
      * now intros [= <- <-].
      * destruct (except_clauses_answer m e (after_call cfg up m request w))
          as (resp' & k & -> & (_ & msg & Hmsg) & _).
        intros [= <- <-]. now rewrite Hmsg.
  - exfalso. revert Hrun.
    destruct (run_shape_total cfg up m request w) as
      [ | | | | | e' ? ? ]; try discriminate.
    destruct (except_clauses_answer m e' (after_call cfg up m request w))
      as (resp' & k & -> & _).
    discriminate.
Qed.

End ReachableWorlds.

(** X20. In every world the handlers can reach, the success flag of a
    response agrees with its status: the body of a 200 response, fetched
    or served from the cache, says success true, and the body of every
    other response says success false. *)
Theorem success_flag_matches_status
    (cfg : Settings) (up : upstream) (m : mode) (request : Request)
    (w w' : world) (resp : Response) :
  reachable w ->
  handler m cfg up request w = (Ok resp, w') ->
  Py.getitem (data resp) "success" = Ok (JBool (status resp =? 200)).
Proof.
  intros Hreach Hrun.
  pose proof (success_flag_of_run cfg up m request w
                (reachable_sound w Hreach)) as H.
  now rewrite Hrun in H.
Qed.

Lemma success_flag_witness :
  Py.getitem (data (mkResponse Sample.london_payload 200)) "success"
  = Ok (JBool (status (mkResponse Sample.london_payload 200) =? 200)).
Proof.
  apply (success_flag_matches_status Sample.cfg
           (Sample.responds 200 (Ok Sample.london)) Current
           (Sample.ask "London") Sample.empty_world Sample.london_stored
           (mkResponse Sample.london_payload 200) (Reach_start 0)).
  vm_compute. reflexivity.
Defined.

(** X21. In every world the handlers can reach, no cache entry is set to
    expire more than 1800 seconds ahead; so once 1800 seconds have passed
    without a fetch, nothing of what the cache held is served any more and
    the next request with a usable city goes to the provider. *)
Theorem nothing_is_served_after_1800_seconds
    (cfg : Settings) (up : upstream) (m : mode) (request : Request)
    (w : world) (seconds : Z) :
  reachable w ->
  1800 <= seconds ->
  (forall key value expires,
      cache w !! key = Some (value, expires) -> expires <= clock w + 1800)
  /\ (forall key, live_entry (advance seconds w) key = None)
  /\ (PyStr.truthy (city_of request) = true ->
      List.filter is_upstream_call
        (new_events (handler m cfg up request) (advance seconds w))
      = [RequestsGet (request_url cfg m)
           (request_params cfg m (city_of request)) 10]).
Proof.
  intros Hreach Hseconds.
  pose proof (reachable_expiry_bounded w Hreach) as Hb.
  assert (Hdead : forall key, live_entry (advance seconds w) key = None).
  { intros key. unfold live_entry. simpl.
    destruct (cache w !! key) as [[value expires]|] eqn:Hentry; [|reflexivity].
    apply Hb in Hentry.
    assert (Hlt : (clock w + Z.max 0 seconds <? expires) = false)
      by (apply Z.ltb_ge; lia).
    now rewrite Hlt. }
  split; [exact Hb|]. split; [exact Hdead|].
  intros Hcity. rewrite upstream_calls_of_run.
  unfold misses. now rewrite Hcity, Hdead.
Qed.

Lemma expiry_witness :
  live_entry (advance 1800 Sample.london_stored) "weather_current_london"
  = None.
Proof.
  assert (Hreach : reachable Sample.london_stored).
  { apply (Reach_run Sample.empty_world Current Sample.cfg
             (Sample.responds 200 (Ok Sample.london)) (Sample.ask "London")).
    apply (Reach_start 0). }
  apply (nothing_is_served_after_1800_seconds Sample.cfg
           (Sample.responds 200 (Ok Sample.london)) Current
           (Sample.ask "London") Sample.london_stored 1800 Hreach).
  discriminate.
Defined.
